(** * HadithApp (src/App.tsx): the cascading selection / fetch state machine

    A shallow embedding of the state logic of the [HadithApp] React
    component: the eleven [useState] cells, the three loaders
    ([fetchBooks], [fetchChapters], [fetchHadiths]) and the three handlers
    ([handleBookSelect], [handleChapterSelect], [handlePageChange]).

    Conventions.
    - A JavaScript string is the list of its UTF-16 code units.
    - A JavaScript number that the component only ever treats as an integer
      (ids, API status codes, page numbers) is a [Z].
    - Each [async] loader is cut at its [await]s: [*_start] is the
      synchronous prefix that runs when the effect fires, [*_settle] is the
      continuation that runs once the request has an outcome.  The values a
      continuation closes over ([selectedBook], [selectedChapter]) are its
      explicit arguments; the state it writes to is the component state at
      the moment it runs.
    - [try / catch / finally] is an exception-and-state monad over the
      component state. *)

From Stdlib Require Import ZArith NArith List Bool String Ascii Lia.
From Stdlib Require DecimalString.
From Stdlib Require DecimalPos.
Import ListNotations.

Local Open Scope Z_scope.

(* ================================================================= *)
(** ** JavaScript strings and [parseInt] *)

Module JS.

(** A string value: its sequence of UTF-16 code units. *)
Definition jsstring : Type := list N.

(** A literal of the source, all of whose characters are ASCII. *)
Definition lit (s : string) : jsstring :=
  map N_of_ascii (list_ascii_of_string s).

(** [StrWhiteSpaceChar] of ECMA-262: WhiteSpace (TAB, VT, FF, ZWNBSP and the
    Unicode space separators) and LineTerminator (LF, CR, LS, PS). *)
Definition isStrWhiteSpaceChar (c : N) : bool :=
  (  N.eqb c 0x09 || N.eqb c 0x0A || N.eqb c 0x0B || N.eqb c 0x0C
  || N.eqb c 0x0D || N.eqb c 0x20 || N.eqb c 0xA0 || N.eqb c 0x1680
  || (N.leb 0x2000 c && N.leb c 0x200A)
  || N.eqb c 0x2028 || N.eqb c 0x2029 || N.eqb c 0x202F
  || N.eqb c 0x205F || N.eqb c 0x3000 || N.eqb c 0xFEFF)%bool.

(** [TrimString(s, start)]. *)
Fixpoint trimStart (s : jsstring) : jsstring :=
  match s with
  | c :: t => if isStrWhiteSpaceChar c then trimStart t else s
  | [] => []
  end.

(** The value of a code unit read as a digit in some radix up to 36. *)
Definition digitValue (c : N) : option Z :=
  if (N.leb 48 c && N.leb c 57)%bool then Some (Z.of_N c - 48)
  else if (N.leb 97 c && N.leb c 122)%bool then Some (Z.of_N c - 87)
  else if (N.leb 65 c && N.leb c 90)%bool then Some (Z.of_N c - 55)
  else None.

Definition radixDigit (R : Z) (c : N) : option Z :=
  match digitValue c with
  | Some d => if d <? R then Some d else None
  | None => None
  end.

(** The longest prefix of radix-[R] digits, as digit values. *)
Fixpoint leadingDigits (R : Z) (s : jsstring) : list Z :=
  match s with
  | c :: t =>
      match radixDigit R c with
      | Some d => d :: leadingDigits R t
      | None => []
      end
  | [] => []
  end.

Definition mathInt (R : Z) (ds : list Z) : Z :=
  fold_left (fun acc d => acc * R + d) ds 0.

(** A Number that results from [parseInt]: [None] is NaN, [Some z] the
    integer [z].  The component only compares the result with [0], and that
    comparison is the same on the exact integer as on the double it is
    rounded to, and the same for [+0] and [-0]; so neither the rounding nor
    the sign of zero is represented. *)
Definition number : Type := option Z.

(** [parseInt(string)] with the radix argument left out (ECMA-262):
    trim leading white space, read a sign, strip a [0x]/[0X] prefix
    (radix 16, otherwise 10), read the longest run of digits; NaN when that
    run is empty. *)
Definition parseInt (inputString : jsstring) : number :=
  let trimmed := trimStart inputString in
  let '(sign, unsigned) :=
    match trimmed with
    | 45%N :: t => (-1, t)
    | 43%N :: t => (1, t)
    | _ => (1, trimmed)
    end in
  let '(R, digits) :=
    match unsigned with
    | 48%N :: 120%N :: t => (16, t)
    | 48%N :: 88%N :: t => (16, t)
    | _ => (10, unsigned)
    end in
  match leadingDigits R digits with
  | [] => None
  | ds => Some (sign * mathInt R ds)
  end.

(** [n > 0] on a Number: false on NaN. *)
Definition gt0 (n : number) : bool :=
  match n with
  | Some z => 0 <? z
  | None => false
  end.

(** [String(n)] / template-literal interpolation of an integral Number. *)
Definition numberToString (n : Z) : jsstring :=
  lit (DecimalString.NilZero.string_of_int (Z.to_int n)).

(** [a || b] where [a] is a possibly absent string and [b] a string:
    [undefined] and [''] are falsy. *)
Definition orElse (a : option jsstring) (b : jsstring) : jsstring :=
  match a with
  | Some (c :: t) => c :: t
  | _ => b
  end.

(** What a [catch] clause can receive: an [Error] instance with its
    [message], or any other thrown value. *)
Inductive thrown : Type :=
| ErrorObject (message : jsstring)
| OtherValue.

(** An [any] of the type declarations. *)
#[warnings="-register-all"]
Inductive any : Type :=
| AnyNull
| AnyBool (b : bool)
| AnyNumber (n : Z)
| AnyString (s : jsstring)
| AnyArray (elems : list any)
| AnyObject (props : list (jsstring * any)).

End JS.

Import JS.

(* ================================================================= *)
(** ** Data model: the interfaces of the API responses *)

Record Book : Type := mkBook {
  book_id : Z;
  bookName : jsstring;
  writerName : jsstring;
  writerDeath : option jsstring;
  bookSlug : jsstring;
  hadiths_count : jsstring;   (* API returns string *)
  chapters_count : jsstring   (* API returns string *)
}.

Record Chapter : Type := mkChapter {
  chapter_id : Z;
  chapterNumber : jsstring;   (* API returns string *)
  chapterEnglish : jsstring;
  chapterUrdu : jsstring;
  chapterArabic : jsstring;
  chapter_bookSlug : jsstring
}.

(** The [book] object embedded in a [Hadith]. *)
Record HadithBook : Type := mkHadithBook {
  hb_id : Z;
  hb_bookName : jsstring;
  hb_writerName : jsstring;
  hb_writerDeath : option jsstring;
  hb_bookSlug : jsstring
}.

Record Hadith : Type := mkHadith {
  hadith_id : Z;
  hadithNumber : jsstring;
  englishNarrator : jsstring;
  hadithEnglish : jsstring;
  hadithUrdu : jsstring;
  hadithArabic : option jsstring;
  headingArabic : option jsstring;
  headingUrdu : option jsstring;
  headingEnglish : option jsstring;
  chapterId : jsstring;
  hadith_bookSlug : jsstring;
  volume : jsstring;
  hadith_status : jsstring;
  hadith_book : HadithBook;
  hadith_chapter : Chapter
}.

(** A value for which [Array.isArray] is false. *)
Inductive NotArray : Type :=
| Undefined
| Null
| Boolean (b : bool)
| Number (n : Z)
| String (s : jsstring)
| Object (props : list (jsstring * any)).

(** What the [data] field of a hadith page holds at run time.  It is
    declared [Hadith[]], and [fetchHadiths] checks it with [Array.isArray]
    before trusting the declaration. *)
Inductive PageData : Type :=
| IsArray (items : list Hadith)
| IsNotArray (v : NotArray).

Definition Array_isArray (d : PageData) : bool :=
  match d with
  | IsArray _ => true
  | IsNotArray _ => false
  end.

(** [HadithApiResponse['hadiths']]: the pagination envelope. *)
Record HadithPage : Type := mkHadithPage {
  current_page : Z;
  data : PageData;
  first_page_url : jsstring;
  from : Z;
  last_page : Z;
  last_page_url : jsstring;
  links : list any;
  next_page_url : option jsstring;
  path : jsstring;
  per_page : Z;
  prev_page_url : option jsstring;
  to : Z;
  total : Z
}.

(** [{ ...p, data: d }]. *)
Definition with_data (p : HadithPage) (d : PageData) : HadithPage :=
  mkHadithPage p.(current_page) d p.(first_page_url) p.(from) p.(last_page)
    p.(last_page_url) p.(links) p.(next_page_url) p.(path) p.(per_page)
    p.(prev_page_url) p.(to) p.(total).

(** The parsed bodies.  [message], [chapters] and [hadiths] are tested for
    truthiness by the loaders, so they are allowed to be absent here. *)
Record BookApiResponse : Type := mkBookApiResponse {
  br_status : Z;
  br_message : option jsstring;
  br_books : list Book
}.

Record ChapterApiResponse : Type := mkChapterApiResponse {
  cr_status : Z;
  cr_message : option jsstring;
  cr_chapters : option (list Chapter)
}.

Record HadithApiResponse : Type := mkHadithApiResponse {
  hr_status : Z;
  hr_message : option jsstring;
  hr_hadiths : option HadithPage
}.

(** A [Response]: its HTTP status and what [response.json()] settles to
    (a rejection, or the parsed body). *)
Record Response (A : Type) : Type := mkResponse {
  status : Z;
  json : thrown + A
}.

Arguments mkResponse {A} status json.
Arguments status {A} r.
Arguments json {A} r.

(** [response.ok]: the status is in the range 200-299. *)
Definition ok {A : Type} (r : Response A) : bool :=
  (200 <=? r.(status)) && (r.(status) <=? 299).

(** How [await fetch(url)] turns out. *)
Inductive Outcome (A : Type) : Type :=
| Rejected (e : thrown)
| Responded (r : Response A).

Arguments Rejected {A} e.
Arguments Responded {A} r.

(** The requests the component issues (the URL without base and key). *)
Inductive Request : Type :=
| GetBooks
| GetChapters (slug : jsstring)
| GetHadiths (book : jsstring) (chapter : jsstring) (page : Z).

(* ================================================================= *)
(** ** Component state: the [useState] cells *)

Record State : Type := mkState {
  books : list Book;
  selectedBook : option Book;
  chapters : list Chapter;
  selectedChapter : option Chapter;
  hadithsData : option HadithPage;
  currentPage : Z;
  loadingBooks : bool;
  loadingChapters : bool;
  loadingHadiths : bool;
  error : option jsstring;
  isSidebarOpen : bool
}.

(** The initial values passed to [useState]. *)
Definition initialState : State :=
  mkState [] None [] None None 1 true false false None false.

Definition setBooks (v : list Book) (s : State) : State :=
  mkState v s.(selectedBook) s.(chapters) s.(selectedChapter)
    s.(hadithsData) s.(currentPage) s.(loadingBooks) s.(loadingChapters)
    s.(loadingHadiths) s.(error) s.(isSidebarOpen).

Definition setSelectedBook (v : option Book) (s : State) : State :=
  mkState s.(books) v s.(chapters) s.(selectedChapter)
    s.(hadithsData) s.(currentPage) s.(loadingBooks) s.(loadingChapters)
    s.(loadingHadiths) s.(error) s.(isSidebarOpen).

Definition setChapters (v : list Chapter) (s : State) : State :=
  mkState s.(books) s.(selectedBook) v s.(selectedChapter)
    s.(hadithsData) s.(currentPage) s.(loadingBooks) s.(loadingChapters)
    s.(loadingHadiths) s.(error) s.(isSidebarOpen).

Definition setSelectedChapter (v : option Chapter) (s : State) : State :=
  mkState s.(books) s.(selectedBook) s.(chapters) v
    s.(hadithsData) s.(currentPage) s.(loadingBooks) s.(loadingChapters)
    s.(loadingHadiths) s.(error) s.(isSidebarOpen).

Definition setHadithsData (v : option HadithPage) (s : State) : State :=
  mkState s.(books) s.(selectedBook) s.(chapters) s.(selectedChapter)
    v s.(currentPage) s.(loadingBooks) s.(loadingChapters)
    s.(loadingHadiths) s.(error) s.(isSidebarOpen).

Definition setCurrentPage (v : Z) (s : State) : State :=
  mkState s.(books) s.(selectedBook) s.(chapters) s.(selectedChapter)
    s.(hadithsData) v s.(loadingBooks) s.(loadingChapters)
    s.(loadingHadiths) s.(error) s.(isSidebarOpen).

Definition setLoadingBooks (v : bool) (s : State) : State :=
  mkState s.(books) s.(selectedBook) s.(chapters) s.(selectedChapter)
    s.(hadithsData) s.(currentPage) v s.(loadingChapters)
    s.(loadingHadiths) s.(error) s.(isSidebarOpen).

Definition setLoadingChapters (v : bool) (s : State) : State :=
  mkState s.(books) s.(selectedBook) s.(chapters) s.(selectedChapter)
    s.(hadithsData) s.(currentPage) s.(loadingBooks) v
    s.(loadingHadiths) s.(error) s.(isSidebarOpen).

Definition setLoadingHadiths (v : bool) (s : State) : State :=
  mkState s.(books) s.(selectedBook) s.(chapters) s.(selectedChapter)
    s.(hadithsData) s.(currentPage) s.(loadingBooks) s.(loadingChapters)
    v s.(error) s.(isSidebarOpen).

Definition setError (v : option jsstring) (s : State) : State :=
  mkState s.(books) s.(selectedBook) s.(chapters) s.(selectedChapter)
    s.(hadithsData) s.(currentPage) s.(loadingBooks) s.(loadingChapters)
    s.(loadingHadiths) v s.(isSidebarOpen).

Definition setIsSidebarOpen (v : bool) (s : State) : State :=
  mkState s.(books) s.(selectedBook) s.(chapters) s.(selectedChapter)
    s.(hadithsData) s.(currentPage) s.(loadingBooks) s.(loadingChapters)
    s.(loadingHadiths) s.(error) v.

(* ================================================================= *)
(** ** Statements over the state, with exceptions *)

Module Eff.

(** How a block completes: normally with a value, or by a [throw]. *)
Inductive Completion (A : Type) : Type :=
| Normal (a : A)
| Abrupt (e : thrown).

Arguments Normal {A} a.
Arguments Abrupt {A} e.

Definition Eff (A : Type) : Type := State -> Completion A * State.

Definition ret {A : Type} (a : A) : Eff A := fun s => (Normal a, s).

Definition bind {A B : Type} (c : Eff A) (k : A -> Eff B) : Eff B :=
  fun s =>
    match c s with
    | (Normal a, s1) => k a s1
    | (Abrupt e, s1) => (Abrupt e, s1)
    end.

Definition throw {A : Type} (e : thrown) : Eff A := fun s => (Abrupt e, s).

(** Read the current state. *)
Definition get : Eff State := fun s => (Normal s, s).

(** A call of one of the [setX] functions. *)
Definition call (f : State -> State) : Eff unit := fun s => (Normal tt, f s).

(** [await p] on a promise that has settled. *)
Definition await {A : Type} (p : thrown + A) : Eff A :=
  match p with
  | inl e => throw e
  | inr a => ret a
  end.

(** [try { body } catch (err) { handler } finally { finalizer }]. *)
Definition tryCatchFinally (body : Eff unit) (handler : thrown -> Eff unit)
    (finalizer : Eff unit) : Eff unit :=
  fun s =>
    match body s with
    | (Normal _, s1) => finalizer s1
    | (Abrupt err, s1) =>
        match handler err s1 with
        | (Normal _, s2) => finalizer s2
        | (Abrupt e2, s2) =>
            match finalizer s2 with
            | (Normal _, s3) => (Abrupt e2, s3)
            | (Abrupt e3, s3) => (Abrupt e3, s3)
            end
        end
    end.

(** The state a block leaves behind. *)
Definition exec {A : Type} (c : Eff A) (s : State) : State := snd (c s).

(** The way a block completes. *)
Definition completion {A : Type} (c : Eff A) (s : State) : Completion A :=
  fst (c s).

End Eff.

Import Eff.

Declare Scope eff_scope.
Delimit Scope eff_scope with eff.
Notation "x <- c ;; k" := (bind c (fun x => k))
  (at level 61, c at next level, right associativity) : eff_scope.
Notation "c ;; k" := (bind c (fun _ => k))
  (at level 61, right associativity) : eff_scope.

(** [new Error(message)]. *)
Definition newError (message : jsstring) : thrown := ErrorObject message.

(** [err instanceof Error ? err.message : 'An unknown error occurred']. *)
Definition errorMessage (err : thrown) : jsstring :=
  match err with
  | ErrorObject message => message
  | OtherValue => lit "An unknown error occurred"
  end.

(** The first statements of every [try] block: await the fetch, then
    [if (!response.ok) throw new Error(`HTTP error! status: ...`)], then
    await [response.json()]. *)
Definition awaitJson {A : Type} (o : Outcome A) : Eff A :=
  (response <- await (match o with
                      | Rejected e => inl e
                      | Responded r => inr r
                      end) ;;
   (if negb (ok response)
    then throw (newError (lit "HTTP error! status: "
                            ++ numberToString response.(status)))
    else ret tt) ;;
   await response.(json))%eff.

(** What the [try] block has in hand after its two [await]s: the parsed
    body, or the value that is thrown to the [catch] clause. *)
Definition received {A : Type} (o : Outcome A) : thrown + A :=
  match o with
  | Rejected e => inl e
  | Responded r =>
      if ok r then r.(json)
      else inl (newError (lit "HTTP error! status: "
                            ++ numberToString r.(status)))
  end.

(* ================================================================= *)
(** ** The loaders *)

(** In each loader [body] is the parsed response the source calls [data]
    (the name of a field of [HadithPage] here). *)

Local Open Scope eff_scope.

(** *** [fetchBooks] (lines 104-126) *)

Definition fetchBooks_start : Eff Request :=
  call (setLoadingBooks true) ;;
  call (setError None) ;;
  ret GetBooks.

Definition fetchBooks_settle (o : Outcome BookApiResponse) : Eff unit :=
  tryCatchFinally
    (body <- awaitJson o ;;
     if body.(br_status) =? 200 then
       (* Filter out books with 0 hadiths count *)
       let availableBooks :=
         filter (fun book => gt0 (parseInt book.(hadiths_count)))
                body.(br_books) in
       call (setBooks availableBooks)
     else
       throw (newError (orElse body.(br_message)
                               (lit "Failed to fetch books"))))
    (fun err => call (setError (Some (errorMessage err))))
    (call (setLoadingBooks false)).

(** *** [fetchChapters] and the effect around it (lines 131-168) *)

Definition fetchChapters_start : Eff (option Request) :=
  s <- get ;;
  match s.(selectedBook) with
  | None =>
      call (setChapters []) ;;
      call (setSelectedChapter None) ;;
      call (setHadithsData None) ;;
      ret None
  | Some book =>
      call (setLoadingChapters true) ;;
      call (setChapters []) ;;            (* Clear previous chapters *)
      call (setSelectedChapter None) ;;   (* Reset selected chapter *)
      call (setHadithsData None) ;;       (* Clear hadiths *)
      call (setError None) ;;
      ret (Some (GetChapters book.(bookSlug)))
  end.

Definition noChaptersFound (book : Book) : jsstring :=
  lit "No chapters found for " ++ book.(bookName) ++ lit ".".

Definition fetchChapters_settle (book : Book)
    (o : Outcome ChapterApiResponse) : Eff unit :=
  tryCatchFinally
    (body <- awaitJson o ;;
     match body.(cr_status) =? 200, body.(cr_chapters) with
     | true, Some cs =>                  (* status === 200 && chapters *)
         call (setChapters cs)
     | _, cs =>
         if (body.(cr_status) =? 404)    (* status === 404 || !chapters *)
            || match cs with Some _ => false | None => true end
         then
           call (setError (Some (noChaptersFound book))) ;;
           call (setChapters [])
         else
           throw (newError (orElse body.(cr_message)
                                   (lit "Failed to fetch chapters")))
     end)
    (fun err => call (setError (Some (errorMessage err))))
    (call (setLoadingChapters false)).

(** *** [fetchHadiths] (lines 171-208) *)

Definition fetchHadiths_start : Eff (option Request) :=
  s <- get ;;
  match s.(selectedBook), s.(selectedChapter) with
  | Some book, Some chapter =>
      call (setLoadingHadiths true) ;;
      call (setError None) ;;
      ret (Some (GetHadiths book.(bookSlug) chapter.(chapterNumber)
                            s.(currentPage)))
  | _, _ =>
      call (setHadithsData None) ;;
      ret None
  end.

Definition noHadithsFoundForPage : jsstring :=
  lit "No hadiths found for this chapter or page.".

Definition noHadithsFoundFor (chapter : Chapter) : jsstring :=
  lit "No hadiths found for Chapter " ++ chapter.(chapterNumber) ++ lit ".".

Definition fetchHadiths_settle (book : Book) (chapter : Chapter)
    (o : Outcome HadithApiResponse) : Eff unit :=
  tryCatchFinally
    (body <- awaitJson o ;;
     match body.(hr_status) =? 200, body.(hr_hadiths) with
     | true, Some hadiths =>             (* status === 200 && hadiths *)
         (* Ensure hadiths data is an array before setting *)
         if Array_isArray hadiths.(data) then
           call (setHadithsData (Some hadiths))
         else
           call (setHadithsData (Some (with_data hadiths (IsArray [])))) ;;
           call (setError (Some noHadithsFoundForPage))
     | _, _ =>
         call (setHadithsData None) ;;
         call (setError (Some (orElse body.(hr_message)
                                      (noHadithsFoundFor chapter))))
     end)
    (fun err =>
       call (setError (Some (errorMessage err))) ;;
       call (setHadithsData None))
    (call (setLoadingHadiths false)).

Local Close Scope eff_scope.

(* ================================================================= *)
(** ** The handlers (lines 216-234) *)

Definition handleBookSelect (book : Book) (s : State) : State :=
  let s := setSelectedBook (Some book) s in
  let s := setSelectedChapter None s in   (* Reset chapter selection *)
  let s := setCurrentPage 1 s in          (* Reset page *)
  let s := setHadithsData None s in       (* Clear hadiths *)
  setIsSidebarOpen false s.               (* Close sidebar on mobile *)

Definition handleChapterSelect (chapter : Chapter) (s : State) : State :=
  let s := setSelectedChapter (Some chapter) s in
  let s := setCurrentPage 1 s in          (* Reset page *)
  setHadithsData None s.                  (* Clear hadiths *)

(** The guard of [handlePageChange]:
    [page > 0 && (!hadithsData || page <= hadithsData.last_page)]. *)
Definition pageAccepted (page : Z) (s : State) : bool :=
  (0 <? page)
  && match s.(hadithsData) with
     | None => true
     | Some h => page <=? h.(last_page)
     end.

Definition handlePageChange (page : Z) (s : State) : State :=
  if pageAccepted page s then setCurrentPage page s else s.

(** The range of page numbers open to a page change: from 1 up to the
    [last_page] of the loaded envelope, with no upper end while none is
    loaded. *)
Definition pageInRange (p : Z) (s : State) : Prop :=
  1 <= p
  /\ (s.(hadithsData) = None
      \/ exists h, s.(hadithsData) = Some h /\ p <= h.(last_page)).

(** The [onClick] of the sidebar toggle (line 266). *)
Definition toggleSidebar (s : State) : State :=
  setIsSidebarOpen (negb s.(isSidebarOpen)) s.

(* ================================================================= *)
(** ** Runs of the component *)

(** What can happen to the mounted component: a handler is called, a
    loader starts, or a pending request of a loader settles.  A settlement
    carries the values its continuation closed over when it started. *)
Inductive Event : Type :=
| BookSelect (book : Book)
| ChapterSelect (chapter : Chapter)
| PageChange (page : Z)
| ToggleSidebar
| BooksStart
| BooksSettle (o : Outcome BookApiResponse)
| ChaptersStart
| ChaptersSettle (book : Book) (o : Outcome ChapterApiResponse)
| HadithsStart
| HadithsSettle (book : Book) (chapter : Chapter)
                (o : Outcome HadithApiResponse).

Definition step (s : State) (e : Event) : State :=
  match e with
  | BookSelect book => handleBookSelect book s
  | ChapterSelect chapter => handleChapterSelect chapter s
  | PageChange page => handlePageChange page s
  | ToggleSidebar => toggleSidebar s
  | BooksStart => exec fetchBooks_start s
  | BooksSettle o => exec (fetchBooks_settle o) s
  | ChaptersStart => exec fetchChapters_start s
  | ChaptersSettle book o => exec (fetchChapters_settle book o) s
  | HadithsStart => exec fetchHadiths_start s
  | HadithsSettle book chapter o => exec (fetchHadiths_settle book chapter o) s
  end.

Definition run (es : list Event) (s : State) : State := fold_left step es s.

(** The page envelope a hadith settlement publishes, if it publishes one. *)
Definition publishedPage (o : Outcome HadithApiResponse) : option HadithPage :=
  match o with
  | Responded r =>
      if ok r then
        match r.(json) with
        | inr d =>
            if d.(hr_status) =? 200 then
              match d.(hr_hadiths) with
              | Some h =>
                  Some (if Array_isArray h.(data) then h
                        else with_data h (IsArray []))
              | None => None
              end
            else None
        | inl _ => None
        end
      else None
  | Rejected _ => None
  end.

(** The page invariant of the data model: the page number is positive and,
    when a page envelope is loaded, at most its [last_page]. *)
Definition pageInvariant (s : State) : Prop :=
  0 < s.(currentPage)
  /\ forall h, s.(hadithsData) = Some h -> s.(currentPage) <= h.(last_page).

(** Every envelope that a settlement of the run publishes has a [last_page]
    that is at least the page number current at that moment. *)
Fixpoint publishesWithinBound (es : list Event) (s : State) : bool :=
  match es with
  | [] => true
  | e :: es' =>
      match e with
      | HadithsSettle _ _ o =>
          match publishedPage o with
          | Some h => s.(currentPage) <=? h.(last_page)
          | None => true
          end
      | _ => true
      end
      && publishesWithinBound es' (step s e)
  end.

(** [needle] occurs in [hay]. *)
Definition mentions (hay needle : jsstring) : Prop :=
  exists before after, hay = before ++ needle ++ after.

(* ================================================================= *)
(** ** Sample data *)

Module Sample.

Definition emptyBook : Book :=
  mkBook 1 (lit "Musnad Ahmad") (lit "Imam Ahmad") None
         (lit "musnad-ahmad") (lit "0") (lit "0").

Definition bukhari : Book :=
  mkBook 2 (lit "Sahih Bukhari") (lit "Imam Bukhari") (Some (lit "256"))
         (lit "sahih-bukhari") (lit "50") (lit "2").

Definition unparsedBook : Book :=
  mkBook 3 (lit "Al-Silsila") (lit "Al-Albani") None
         (lit "al-silsila-sahiha") (lit "") (lit "0").

Definition chapter1 : Chapter :=
  mkChapter 10 (lit "1") (lit "Revelation") (lit "") (lit "") 
            (lit "sahih-bukhari").

Definition chapter2 : Chapter :=
  mkChapter 11 (lit "2") (lit "Belief") (lit "") (lit "")
            (lit "sahih-bukhari").

Definition hadith1 : Hadith :=
  mkHadith 100 (lit "1") (lit "Umar") (lit "Actions are by intentions")
           (lit "") None None None None (lit "1") (lit "sahih-bukhari")
           (lit "1") (lit "Sahih")
           (mkHadithBook 2 (lit "Sahih Bukhari") (lit "Imam Bukhari")
                         (Some (lit "256")) (lit "sahih-bukhari"))
           chapter1.

(** A page envelope of a three-page chapter. *)
Definition pageOf3 (current : Z) (d : PageData) : HadithPage :=
  mkHadithPage current d (lit "/hadiths?page=1") 1 3 (lit "/hadiths?page=3")
               [] None (lit "/hadiths") 25 None 25 51.

Definition okJson {A : Type} (body : A) : Outcome A :=
  Responded (mkResponse 200 (inr body)).

Definition catalog : BookApiResponse :=
  mkBookApiResponse 200 (Some (lit "Books has been found."))
                    [emptyBook; bukhari; unparsedBook].

Definition twoChapters : ChapterApiResponse :=
  mkChapterApiResponse 200 (Some (lit "Chapters has been found."))
                       (Some [chapter1; chapter2]).

(** Status 200 and an empty (but present) chapter array. *)
Definition zeroChapters : ChapterApiResponse :=
  mkChapterApiResponse 200 (Some (lit "Chapters has been found."))
                       (Some []).

Definition notFoundChapters : ChapterApiResponse :=
  mkChapterApiResponse 404 (Some (lit "Chapters not found.")) None.

Definition hadithPage (current : Z) (d : PageData) : HadithApiResponse :=
  mkHadithApiResponse 200 (Some (lit "Hadiths has been found."))
                      (Some (pageOf3 current d)).

(** The component once the catalog has loaded. *)
Definition loaded : State :=
  run [BooksStart; BooksSettle (okJson catalog)] initialState.

(** ... once a book has been picked and its chapter request is pending. *)
Definition bookPicked : State :=
  run [BookSelect bukhari; ChaptersStart; HadithsStart] loaded.

(** ... once a chapter has been picked and its first page is pending. *)
Definition chapterPicked : State :=
  run [ChaptersSettle bukhari (okJson twoChapters);
       ChapterSelect chapter1; HadithsStart] bookPicked.

(** ... once the first page of three has arrived. *)
Definition page1Shown : State :=
  run [HadithsSettle bukhari chapter1
         (okJson (hadithPage 1 (IsArray [hadith1])))] chapterPicked.

(** The transitions of the selection state machine alone, with a single
    settlement: a page change made before any envelope is known, then the
    envelope of a three-page chapter arrives. *)
Definition overshoot : list Event :=
  [BookSelect bukhari; ChapterSelect chapter1; PageChange 5;
   HadithsSettle bukhari chapter1 (okJson (hadithPage 5 (IsArray [])))].

End Sample.

(* ================================================================= *)
(** ** The render (lines 236-387) *)

(** Truthiness of the [error] cell: [null] and [''] are falsy. *)
Definition isSet (e : option jsstring) : bool :=
  match e with
  | Some (_ :: _) => true
  | _ => false
  end.

(** A button of the sidebar: [onClick] calls [handleBookSelect] on
    [bb_book]. *)
Record BookButton : Type := mkBookButton {
  bb_book : Book;
  bb_label : jsstring;     (* `${book.bookName} (${book.hadiths_count})` *)
  bb_active : bool         (* selectedBook?.id === book.id *)
}.

Inductive SidebarView : Type :=
| SidebarLoading                         (* "Loading Books..." *)
| SidebarError (message : jsstring)
| SidebarNav (buttons : list BookButton).

(** What stands under the heading "Chapters in ...". *)
Inductive ChapterArea : Type :=
| ChaptersLoading                        (* "Loading Chapters..." *)
| ChapterGrid (cards : list Chapter)     (* onClick: handleChapterSelect *)
| NoChaptersAvailable                    (* "No chapters available ..." *)
| ChapterAreaEmpty.                      (* null *)

(** The pagination row: [Previous] calls [handlePageChange] on
    [previousTarget], [Next] on [nextTarget], unless disabled. *)
Record Pagination : Type := mkPagination {
  previousTarget : Z;
  previousDisabled : bool;
  pageLabel : jsstring;
  nextTarget : Z;
  nextDisabled : bool
}.

Inductive HadithArea : Type :=
| HadithsLoading                         (* "Loading Hadiths..." *)
| HadithList (cards : list Hadith) (pagination : option Pagination)
| NoHadithsFound                         (* "No hadiths found for ..." *)
| HadithAreaEmpty.                       (* null *)

Inductive Content : Type :=
| ChapterSelection (heading : jsstring) (area : ChapterArea)
| HadithDisplay (area : HadithArea).

Record View : Type := mkView {
  sidebarShown : bool;                   (* translate-x-0 *)
  sidebar : SidebarView;
  title : jsstring;
  errorBanner : option jsstring;
  selectPrompt : bool;                   (* "Please select a book ..." *)
  content : option Content
}.

Definition renderBookButton (s : State) (book : Book) : BookButton :=
  mkBookButton book
    (book.(bookName) ++ lit " (" ++ book.(hadiths_count) ++ lit ")")
    match s.(selectedBook) with
    | Some selected => selected.(book_id) =? book.(book_id)
    | None => false
    end.

Definition renderSidebar (s : State) : SidebarView :=
  if s.(loadingBooks) then SidebarLoading
  else
    match s.(error) with
    | Some (c :: t) =>
        if Nat.eqb (List.length s.(books)) 0 then SidebarError (c :: t)
        else SidebarNav (map (renderBookButton s) s.(books))
    | _ => SidebarNav (map (renderBookButton s) s.(books))
    end.

Definition renderTitle (s : State) : jsstring :=
  match s.(selectedBook) with
  | Some book => book.(bookName)
  | None => lit "Hadith Collection"
  end
  ++ match s.(selectedChapter) with
     | Some chapter =>
         lit " - Ch " ++ chapter.(chapterNumber) ++ lit ": "
           ++ chapter.(chapterEnglish)
     | None => []
     end.

Definition renderChapterArea (s : State) : ChapterArea :=
  if s.(loadingChapters) then ChaptersLoading
  else if Nat.ltb 0 (List.length s.(chapters)) then ChapterGrid s.(chapters)
  else if negb s.(loadingChapters) && negb (isSet s.(error))
       then NoChaptersAvailable
  else ChapterAreaEmpty.

Definition renderPagination (s : State) (h : HadithPage) : Pagination :=
  mkPagination
    (s.(currentPage) - 1)
    (s.(currentPage) =? 1)
    (lit "Page " ++ numberToString s.(currentPage) ++ lit " of "
       ++ numberToString h.(last_page))
    (s.(currentPage) + 1)
    (s.(currentPage) =? h.(last_page)).

(** The hadith area.  [hadithsData.data] is used as the array it is
    declared to be ([.length], [.map]); on a value that is not an array
    the render is not modelled ([None]). *)
Definition renderHadithArea (s : State) : option HadithArea :=
  let fallback :=
    if negb s.(loadingHadiths) && negb (isSet s.(error))
    then NoHadithsFound else HadithAreaEmpty in
  if s.(loadingHadiths) then Some HadithsLoading
  else
    match s.(hadithsData) with
    | Some h =>
        match h.(data) with
        | IsArray items =>
            if Nat.ltb 0 (List.length items) then
              Some (HadithList items
                      (if 1 <? h.(last_page)
                       then Some (renderPagination s h) else None))
            else Some fallback
        | IsNotArray _ => None
        end
    | None => Some fallback
    end.

Definition renderContent (s : State) : option (option Content) :=
  match s.(selectedBook) with
  | None => Some None
  | Some book =>
      match s.(selectedChapter) with
      | None =>
          Some (Some (ChapterSelection
                        (lit "Chapters in " ++ book.(bookName))
                        (renderChapterArea s)))
      | Some _ =>
          match renderHadithArea s with
          | Some area => Some (Some (HadithDisplay area))
          | None => None
          end
      end
  end.

Definition render (s : State) : option View :=
  match renderContent s with
  | Some c =>
      Some (mkView s.(isSidebarOpen) (renderSidebar s) (renderTitle s)
              (if isSet s.(error) then s.(error) else None)
              (match s.(selectedBook) with
               | None => negb s.(loadingBooks)
               | Some _ => false
               end)
              c)
  | None => None
  end.

(** The handler calls a user can trigger from a view: the sidebar toggle,
    the book buttons, the chapter cards, and the pagination buttons that
    are not disabled. *)
Definition clicks (v : View) : list Event :=
  ToggleSidebar
  :: match v.(sidebar) with
     | SidebarNav buttons => map (fun b => BookSelect b.(bb_book)) buttons
     | _ => []
     end
  ++ match v.(content) with
     | Some (ChapterSelection _ (ChapterGrid cards)) => map ChapterSelect cards
     | Some (HadithDisplay (HadithList _ (Some p))) =>
         (if p.(previousDisabled) then []
          else [PageChange p.(previousTarget)])
         ++ (if p.(nextDisabled) then [] else [PageChange p.(nextTarget)])
     | _ => []
     end.

(* ================================================================= *)
(** ** State predicates *)

(** The loaded page envelope, if any, holds an array. *)
Definition dataIsArray (s : State) : Prop :=
  forall h, s.(hadithsData) = Some h -> Array_isArray h.(data) = true.

(** Every published book has a hadith count that parses to a positive
    number. *)
Definition booksAvailable (s : State) : Prop :=
  forall b, In b s.(books) -> gt0 (parseInt b.(hadiths_count)) = true.

(** The events that belong to a loader (a start or a settlement). *)
Definition isLoaderEvent (e : Event) : bool :=
  match e with
  | BooksStart | BooksSettle _ | ChaptersStart | ChaptersSettle _ _
  | HadithsStart | HadithsSettle _ _ _ => true
  | _ => false
  end.


(** Every handler call of a run is one that the view on screen at that
    moment offers. *)
Fixpoint offered (es : list Event) (s : State) : Prop :=
  match es with
  | [] => True
  | e :: es' =>
      (isLoaderEvent e = true
       \/ exists v, render s = Some v /\ In e (clicks v))
      /\ offered es' (step s e)
  end.

(* ================================================================= *)
(** ** Scenarios *)

Module Scenario.

Definition muslim : Book :=
  mkBook 4 (lit "Sahih Muslim") (lit "Imam Muslim") (Some (lit "261"))
         (lit "sahih-muslim") (lit "7564") (lit "56").

Definition faith : Chapter :=
  mkChapter 20 (lit "1") (lit "The Book of Faith") (lit "") (lit "")
            (lit "sahih-muslim").

(** A page envelope of a chapter with [last] pages. *)
Definition pageOf (last current : Z) (d : PageData) : HadithApiResponse :=
  mkHadithApiResponse 200 (Some (lit "Hadiths has been found."))
    (Some (mkHadithPage current d (lit "/hadiths?page=1") 1 last
             (lit "/hadiths") [] None (lit "/hadiths") 25 None 25 200)).

Definition serverError {A : Type} : Outcome A :=
  Responded (mkResponse 500 (inl (ErrorObject (lit "Unexpected token <")))).

Definition catalog : BookApiResponse :=
  mkBookApiResponse 200 (Some (lit "Books has been found."))
                    [Sample.bukhari; muslim].

(** The request for the first page of a chapter of "Sahih Bukhari" is
    slow.  Meanwhile the user picks "Sahih Muslim", a chapter of eight
    pages, and walks to page 5.  Then the slow request settles. *)
Definition staleRace : list Event :=
  [BooksStart; BooksSettle (Sample.okJson catalog);
   BookSelect Sample.bukhari; ChaptersStart; HadithsStart;
   ChaptersSettle Sample.bukhari (Sample.okJson Sample.twoChapters);
   ChapterSelect Sample.chapter1; HadithsStart;
   BookSelect muslim; ChaptersStart; HadithsStart;
   ChaptersSettle muslim
     (Sample.okJson (mkChapterApiResponse 200 None (Some [faith])));
   ChapterSelect faith; HadithsStart;
   HadithsSettle muslim faith
     (Sample.okJson (pageOf 8 1 (IsArray [Sample.hadith1])));
   PageChange 2; HadithsStart;
   HadithsSettle muslim faith
     (Sample.okJson (pageOf 8 2 (IsArray [Sample.hadith1])));
   PageChange 3; HadithsStart;
   HadithsSettle muslim faith
     (Sample.okJson (pageOf 8 3 (IsArray [Sample.hadith1])));
   PageChange 4; HadithsStart;
   HadithsSettle muslim faith
     (Sample.okJson (pageOf 8 4 (IsArray [Sample.hadith1])));
   PageChange 5; HadithsStart;
   HadithsSettle muslim faith
     (Sample.okJson (pageOf 8 5 (IsArray [Sample.hadith1])));
   HadithsSettle Sample.bukhari Sample.chapter1
     (Sample.okJson (Sample.hadithPage 1 (IsArray [Sample.hadith1])))].

Definition afterStaleRace : State := run staleRace initialState.

End Scenario.

(* ================================================================= *)
(** * Properties *)

(** ** [parseInt] on small inputs *)

Example parseInt_50 : parseInt (lit "50") = Some 50.
Proof. reflexivity. Qed.

Example parseInt_0 : parseInt (lit "0") = Some 0.
Proof. reflexivity. Qed.

Example parseInt_padded : parseInt (lit "  +12 books") = Some 12.
Proof. reflexivity. Qed.

Example parseInt_hex : parseInt (lit "0x1F") = Some 31.
Proof. reflexivity. Qed.

Example parseInt_negative : parseInt (lit "-7") = Some (-7).
Proof. reflexivity. Qed.

Example parseInt_empty : parseInt (lit "") = None.
Proof. reflexivity. Qed.

Example parseInt_text : parseInt (lit "many") = None.
Proof. reflexivity. Qed.

Example numberToString_404 : numberToString 404 = lit "404".
Proof. reflexivity. Qed.

Example parseInt_whitespace_only : parseInt (lit "   ") = None.
Proof. reflexivity. Qed.

Example parseInt_bare_prefix : parseInt (lit "0x") = None.
Proof. reflexivity. Qed.

(** ** The shared request prefix *)

Lemma awaitJson_received {A : Type} (o : Outcome A) (s : State) :
  awaitJson o s =
  (match received o with inl e => Abrupt e | inr a => Normal a end, s).
Proof.
  destruct o as [e | r]; [reflexivity |].
  unfold awaitJson, received, bind, await; cbn.
  destruct (ok r); cbn; [| reflexivity].
  destruct (json r); reflexivity.
Qed.

Lemma received_ok {A : Type} (r : Response A) (body : A) :
  ok r = true -> r.(json) = inr body -> received (Responded r) = inr body.
Proof. intros Hok Hjson. cbn. now rewrite Hok. Qed.

(** Unfolds a settlement down to the outcome of [awaitJson]. *)
Ltac settle o s :=
  unfold exec, completion, fetchBooks_settle, fetchChapters_settle,
    fetchHadiths_settle, tryCatchFinally, bind;
  rewrite (awaitJson_received o s).

(** ** Settlements never let an exception escape *)

Lemma fetchBooks_settle_total (o : Outcome BookApiResponse) (s : State) :
  completion (fetchBooks_settle o) s = Normal tt.
Proof.
  settle o s.
  destruct (received o) as [e | body]; [reflexivity |].
  destruct (br_status body =? 200); reflexivity.
Qed.

Lemma fetchChapters_settle_total (book : Book)
    (o : Outcome ChapterApiResponse) (s : State) :
  completion (fetchChapters_settle book o) s = Normal tt.
Proof.
  settle o s.
  destruct (received o) as [e | body]; [reflexivity |].
  destruct (cr_status body =? 200), (cr_chapters body) as [cs |],
    (cr_status body =? 404); reflexivity.
Qed.

Lemma fetchHadiths_settle_total (book : Book) (chapter : Chapter)
    (o : Outcome HadithApiResponse) (s : State) :
  completion (fetchHadiths_settle book chapter o) s = Normal tt.
Proof.
  settle o s.
  destruct (received o) as [e | body]; [reflexivity |].
  destruct (hr_status body =? 200), (hr_hadiths body) as [h |];
    try reflexivity.
  destruct (Array_isArray (data h)); reflexivity.
Qed.

(** ** The book catalog *)

(** What [fetchBooks] publishes on a successful response: the books of the
    response, in order, whose count parses to a positive number. *)
Lemma fetchBooks_settle_success (s : State) (r : Response BookApiResponse)
    (body : BookApiResponse) :
  ok r = true -> r.(json) = inr body -> body.(br_status) = 200 ->
  exec (fetchBooks_settle (Responded r)) s =
  setLoadingBooks false
    (setBooks (filter (fun book => gt0 (parseInt book.(hadiths_count)))
                      body.(br_books)) s).
Proof.
  intros Hok Hjson Hstatus.
  settle (Responded r) s.
  rewrite (received_ok r body Hok Hjson), Hstatus.
  reflexivity.
Qed.

Lemma gt0_spec (n : number) : gt0 n = true <-> exists z, n = Some z /\ 0 < z.
Proof.
  destruct n as [z |]; cbn.
  - rewrite Z.ltb_lt. split.
    + intros Hz. now exists z.
    + intros [z' [Heq Hz]]. now inversion Heq; subst.
  - split; [discriminate | intros [z [Heq _]]; discriminate].
Qed.

(** C1: for every book [b] of a successful catalog response (HTTP ok, API
    status 200), [b] is in the published book list if and only if
    [parseInt(b.hadiths_count) > 0]; in particular a book whose count
    parses to zero is not in the list. *)
Theorem fetchBooks_publishes_iff_positive_count
    (s : State) (r : Response BookApiResponse) (body : BookApiResponse)
    (b : Book) :
  ok r = true -> r.(json) = inr body -> body.(br_status) = 200 ->
  In b body.(br_books) ->
  let s' := exec (fetchBooks_settle (Responded r)) s in
  (In b s'.(books) <->
     exists n, parseInt b.(hadiths_count) = Some n /\ 0 < n)
  /\ (parseInt b.(hadiths_count) = Some 0 -> ~ In b s'.(books)).
Proof.
  intros Hok Hjson Hstatus Hin s'. subst s'.
  rewrite (fetchBooks_settle_success s r body Hok Hjson Hstatus). cbn.
  rewrite filter_In, gt0_spec. split.
  - tauto.
  - intros Hzero [_ [n [Hn Hpos]]]. rewrite Hzero in Hn.
    inversion Hn; subst. lia.
Qed.

Lemma fetchBooks_publishes_iff_positive_count_witness :
  let s' := exec (fetchBooks_settle (Sample.okJson Sample.catalog))
                 (exec fetchBooks_start initialState) in
  s'.(books) = [Sample.bukhari]
  /\ (In Sample.bukhari s'.(books) <->
        exists n, parseInt Sample.bukhari.(hadiths_count) = Some n /\ 0 < n)
  /\ (parseInt Sample.emptyBook.(hadiths_count) = Some 0 ->
        ~ In Sample.emptyBook s'.(books)).
Proof.
  split; [reflexivity |]. split.
  - apply (fetchBooks_publishes_iff_positive_count
             (exec fetchBooks_start initialState)
             (mkResponse 200 (inr Sample.catalog)) Sample.catalog
             Sample.bukhari);
      [reflexivity | reflexivity | reflexivity | simpl; tauto].
  - apply (fetchBooks_publishes_iff_positive_count
             (exec fetchBooks_start initialState)
             (mkResponse 200 (inr Sample.catalog)) Sample.catalog
             Sample.emptyBook);
      [reflexivity | reflexivity | reflexivity | simpl; tauto].
Defined.

(** C8: a book whose [hadiths_count] does not parse ([parseInt] gives NaN)
    is not in the catalog published from a successful response, which is
    also what happens to a book whose count parses to zero: the filter
    takes the same branch for NaN as for [0]. *)
Theorem fetchBooks_excludes_unparsed_count
    (s : State) (r : Response BookApiResponse) (body : BookApiResponse)
    (b : Book) :
  ok r = true -> r.(json) = inr body -> body.(br_status) = 200 ->
  parseInt b.(hadiths_count) = None ->
  ~ In b (exec (fetchBooks_settle (Responded r)) s).(books)
  /\ gt0 (parseInt b.(hadiths_count)) = gt0 (Some 0).
Proof.
  intros Hok Hjson Hstatus Hnan.
  rewrite (fetchBooks_settle_success s r body Hok Hjson Hstatus). cbn.
  rewrite filter_In, Hnan. cbn. split; [| reflexivity].
  intros [_ Hfalse]. discriminate.
Qed.

Lemma fetchBooks_excludes_unparsed_count_witness :
  In Sample.unparsedBook Sample.catalog.(br_books)
  /\ ~ In Sample.unparsedBook
       (exec (fetchBooks_settle (Sample.okJson Sample.catalog))
             (exec fetchBooks_start initialState)).(books)
  /\ gt0 (parseInt Sample.unparsedBook.(hadiths_count)) = gt0 (Some 0).
Proof.
  split; [simpl; tauto |].
  apply (fetchBooks_excludes_unparsed_count
           (exec fetchBooks_start initialState)
           (mkResponse 200 (inr Sample.catalog)) Sample.catalog
           Sample.unparsedBook); reflexivity.
Defined.

(** End-to-end: of a catalog with counts "0", "50" and "", only the book
    with "50" is navigable. *)
Example catalog_end_to_end :
  Sample.loaded.(books) = [Sample.bukhari]
  /\ Sample.loaded.(loadingBooks) = false
  /\ Sample.loaded.(error) = None.
Proof. repeat split. Qed.

(** ** The selection state machine *)

(** C2: from any state, [handleBookSelect b] leaves the selected book [b],
    no selected chapter, page number 1, no loaded hadith page and the
    mobile sidebar closed. *)
Theorem handleBookSelect_resets (s : State) (b : Book) :
  let s' := handleBookSelect b s in
  s'.(selectedBook) = Some b
  /\ s'.(selectedChapter) = None
  /\ s'.(currentPage) = 1
  /\ s'.(hadithsData) = None
  /\ s'.(isSidebarOpen) = false.
Proof. cbn. repeat split. Qed.

(** C4: from any state, [handleChapterSelect c] leaves the selected
    chapter [c], page number 1 and no loaded hadith page. *)
Theorem handleChapterSelect_resets (s : State) (c : Chapter) :
  let s' := handleChapterSelect c s in
  s'.(selectedChapter) = Some c
  /\ s'.(currentPage) = 1
  /\ s'.(hadithsData) = None.
Proof. cbn. repeat split. Qed.

(** C9: [handleChapterSelect c] leaves the selected book, the book list,
    the chapter list and the sidebar flag as they were (and the loading
    flags and the error too); so an open sidebar stays open, where
    [handleBookSelect] closes it. *)
Theorem handleChapterSelect_frame (s : State) (c : Chapter) :
  let s' := handleChapterSelect c s in
  s'.(selectedBook) = s.(selectedBook)
  /\ s'.(books) = s.(books)
  /\ s'.(chapters) = s.(chapters)
  /\ s'.(isSidebarOpen) = s.(isSidebarOpen)
  /\ s'.(loadingBooks) = s.(loadingBooks)
  /\ s'.(loadingChapters) = s.(loadingChapters)
  /\ s'.(loadingHadiths) = s.(loadingHadiths)
  /\ s'.(error) = s.(error)
  /\ (forall b, s.(isSidebarOpen) = true ->
        s'.(isSidebarOpen) = true
        /\ (handleBookSelect b s).(isSidebarOpen) = false).
Proof. cbn. repeat split; assumption. Qed.

Lemma handleChapterSelect_frame_witness :
  let s := toggleSidebar Sample.bookPicked in
  s.(isSidebarOpen) = true
  /\ (handleChapterSelect Sample.chapter1 s).(isSidebarOpen) = true
  /\ (handleBookSelect Sample.bukhari s).(isSidebarOpen) = false.
Proof.
  split; [reflexivity |].
  apply (handleChapterSelect_frame (toggleSidebar Sample.bookPicked)
           Sample.chapter1).
  reflexivity.
Defined.

Lemma pageAccepted_spec (p : Z) (s : State) :
  pageAccepted p s = true <-> pageInRange p s.
Proof.
  unfold pageAccepted, pageInRange.
  rewrite andb_true_iff, Z.ltb_lt.
  destruct (hadithsData s) as [h |].
  - rewrite Z.leb_le. split.
    + intros [Hp Hle]. split; [lia |]. right. now exists h.
    + intros [Hp [Hnone | [h' [Heq Hle]]]]; [discriminate |].
      inversion Heq; subst. split; [lia | assumption].
  - split.
    + intros [Hp _]. split; [lia |]. now left.
    + intros [Hp _]. split; [lia | reflexivity].
Qed.

(** C3: for every integer [p], [handlePageChange p] sets the page number
    to [p], and changes nothing else, when [p >= 1] and either no page
    envelope is loaded or [p <= last_page] of the loaded one; in every
    other case the state after it is the state before it, error included. *)
Theorem handlePageChange_guard (p : Z) (s : State) :
  (pageInRange p s ->
     handlePageChange p s = setCurrentPage p s
     /\ (handlePageChange p s).(currentPage) = p
     /\ (handlePageChange p s).(error) = s.(error))
  /\ (~ pageInRange p s -> handlePageChange p s = s).
Proof.
  unfold handlePageChange. split.
  - intros Hin. apply pageAccepted_spec in Hin. rewrite Hin.
    repeat split.
  - intros Hout. destruct (pageAccepted p s) eqn:Hacc; [| reflexivity].
    apply pageAccepted_spec in Hacc. contradiction.
Qed.

Lemma handlePageChange_guard_witness :
  (handlePageChange 2 Sample.page1Shown).(currentPage) = 2
  /\ handlePageChange 5 Sample.page1Shown = Sample.page1Shown
  /\ handlePageChange 0 Sample.page1Shown = Sample.page1Shown
  /\ (handlePageChange 5 Sample.chapterPicked).(currentPage) = 5.
Proof.
  pose proof (handlePageChange_guard 2 Sample.page1Shown) as [Hin2 _].
  pose proof (handlePageChange_guard 5 Sample.page1Shown) as [_ Hout5].
  pose proof (handlePageChange_guard 0 Sample.page1Shown) as [_ Hout0].
  pose proof (handlePageChange_guard 5 Sample.chapterPicked) as [Hin5 _].
  split; [| split; [| split]].
  - apply Hin2. split; [lia |]. right.
    exists (Sample.pageOf3 1 (IsArray [Sample.hadith1])).
    split; [reflexivity | cbn; lia].
  - apply Hout5. intros [_ [Hnone | [h [Heq Hle]]]]; [discriminate |].
    inversion Heq; subst. cbn in Hle. lia.
  - apply Hout0. intros [Hp _]. lia.
  - apply Hin5. split; [lia |]. now left.
Defined.

(** ** The chapter loader *)

Lemma noChaptersFound_mentions (book : Book) :
  mentions (noChaptersFound book) book.(bookName).
Proof. exists (lit "No chapters found for "), (lit "."). reflexivity. Qed.

(** C5, as the code has it: when the chapter request for book [B] settles
    with API status 404, or with no chapter list in the body, the published
    chapter list is empty, the error is "No chapters found for <B's name>."
    and the loading flag is false.  When it settles with status 200 and a
    chapter list that is present but empty, the published list is empty and
    the loading flag is false, and the error is left as it was. *)
Theorem fetchChapters_settle_no_chapters
    (B : Book) (s : State) (r : Response ChapterApiResponse)
    (body : ChapterApiResponse) :
  ok r = true -> r.(json) = inr body ->
  let s' := exec (fetchChapters_settle B (Responded r)) s in
  (body.(cr_status) = 404 \/ body.(cr_chapters) = None ->
     s'.(chapters) = []
     /\ s'.(error) = Some (noChaptersFound B)
     /\ mentions (noChaptersFound B) B.(bookName)
     /\ s'.(loadingChapters) = false)
  /\ (body.(cr_status) = 200 -> body.(cr_chapters) = Some [] ->
     s'.(chapters) = []
     /\ s'.(error) = s.(error)
     /\ s'.(loadingChapters) = false).
Proof.
  intros Hok Hjson s'. subst s'.
  settle (Responded r) s.
  rewrite (received_ok r body Hok Hjson).
  split.
  - intros Hcase.
    assert (Hbranch :
      match body.(cr_status) =? 200, body.(cr_chapters) with
      | true, Some _ => False
      | _, cs => (body.(cr_status) =? 404)
                 || match cs with Some _ => false | None => true end = true
      end).
    { destruct Hcase as [H404 | Hnone].
      - rewrite H404. cbn. now destruct (cr_chapters body).
      - rewrite Hnone. destruct (cr_status body =? 200);
          apply orb_true_r. }
    pose proof (noChaptersFound_mentions B) as Hm.
    destruct (cr_status body =? 200), (cr_chapters body) as [cs |];
      try contradiction; rewrite Hbranch; cbn; repeat split; assumption.
  - intros H200 Hempty. rewrite H200, Hempty. cbn. repeat split.
Qed.

Lemma fetchChapters_settle_no_chapters_witness :
  let s' := exec (fetchChapters_settle Sample.bukhari
                    (Sample.okJson Sample.notFoundChapters))
                 Sample.bookPicked in
  s'.(chapters) = []
  /\ s'.(error) = Some (lit "No chapters found for Sahih Bukhari.")
  /\ mentions (noChaptersFound Sample.bukhari) Sample.bukhari.(bookName)
  /\ s'.(loadingChapters) = false.
Proof.
  apply (fetchChapters_settle_no_chapters Sample.bukhari Sample.bookPicked
           (mkResponse 200 (inr Sample.notFoundChapters))
           Sample.notFoundChapters);
    [reflexivity | reflexivity | left; reflexivity].
Defined.

(** C5 as stated fails on an empty chapter list sent with status 200: the
    request for the chapters of "Sahih Bukhari" settles with
    [{status: 200, chapters: []}]; the published list is empty and the
    loading flag false, but no error is set. *)
Lemma empty_chapter_list_sets_no_error :
  let s' := exec (fetchChapters_settle Sample.bukhari
                    (Sample.okJson Sample.zeroChapters))
                 Sample.bookPicked in
  Sample.zeroChapters.(cr_chapters) = Some []
  /\ s'.(chapters) = []
  /\ s'.(loadingChapters) = false
  /\ s'.(error) = None
  /\ ~ (exists m, s'.(error) = Some m
                  /\ mentions m Sample.bukhari.(bookName)).
Proof.
  cbn. repeat split. intros [m [Hm _]]. discriminate.
Qed.

(** ** The hadith page loader *)

(** C6: when a hadith page response has API status 200 and an envelope
    whose [data] is not an array, the loader publishes that envelope with
    [data] replaced by the empty array (every other field kept) and sets
    the error "No hadiths found for this chapter or page.". *)
Theorem fetchHadiths_settle_data_not_array
    (B : Book) (C : Chapter) (s : State) (r : Response HadithApiResponse)
    (body : HadithApiResponse) (h : HadithPage) :
  ok r = true -> r.(json) = inr body ->
  body.(hr_status) = 200 -> body.(hr_hadiths) = Some h ->
  Array_isArray h.(data) = false ->
  let s' := exec (fetchHadiths_settle B C (Responded r)) s in
  s'.(hadithsData) = Some (with_data h (IsArray []))
  /\ (with_data h (IsArray [])).(data) = IsArray []
  /\ (with_data h (IsArray [])).(last_page) = h.(last_page)
  /\ (with_data h (IsArray [])).(current_page) = h.(current_page)
  /\ (with_data h (IsArray [])).(total) = h.(total)
  /\ s'.(error) = Some (lit "No hadiths found for this chapter or page.")
  /\ s'.(loadingHadiths) = false.
Proof.
  intros Hok Hjson Hstatus Hpage Hdata s'. subst s'.
  settle (Responded r) s.
  rewrite (received_ok r body Hok Hjson), Hstatus, Hpage. cbn.
  rewrite Hdata. cbn. repeat split.
Qed.

Lemma fetchHadiths_settle_data_not_array_witness :
  let s' := exec (fetchHadiths_settle Sample.bukhari Sample.chapter1
                    (Sample.okJson (Sample.hadithPage 1 (IsNotArray Null))))
                 Sample.chapterPicked in
  s'.(hadithsData) = Some (Sample.pageOf3 1 (IsArray []))
  /\ s'.(error) = Some (lit "No hadiths found for this chapter or page.")
  /\ s'.(loadingHadiths) = false.
Proof.
  pose proof (fetchHadiths_settle_data_not_array
                Sample.bukhari Sample.chapter1 Sample.chapterPicked
                (mkResponse 200
                   (inr (Sample.hadithPage 1 (IsNotArray Null))))
                (Sample.hadithPage 1 (IsNotArray Null))
                (Sample.pageOf3 1 (IsNotArray Null))
                eq_refl eq_refl eq_refl eq_refl eq_refl)
    as [Hpage [_ [_ [_ [_ [Herr Hload]]]]]].
  repeat split; assumption.
Defined.

(** ** Errors at the start of a request *)

(** C10: each of the three loaders, whenever it issues a request, has set
    the error to null by the time the request is pending, whatever error
    was published before; [fetchBooks] always issues one. *)
Theorem loaders_clear_error_on_start (s : State) :
  (completion fetchBooks_start s = Normal GetBooks
   /\ (exec fetchBooks_start s).(error) = None)
  /\ (forall req, completion fetchChapters_start s = Normal (Some req) ->
        (exec fetchChapters_start s).(error) = None)
  /\ (forall req, completion fetchHadiths_start s = Normal (Some req) ->
        (exec fetchHadiths_start s).(error) = None).
Proof.
  unfold completion, exec, fetchChapters_start, fetchHadiths_start, bind, get.
  split; [split; reflexivity |]. split; intros req; cbn.
  - destruct (selectedBook s) as [b |]; cbn; [reflexivity | discriminate].
  - destruct (selectedBook s) as [b |], (selectedChapter s) as [c |]; cbn;
      try discriminate; reflexivity.
Qed.

Lemma loaders_clear_error_on_start_witness :
  let failed := setError (Some noHadithsFoundForPage) Sample.page1Shown in
  failed.(error) = Some noHadithsFoundForPage
  /\ (exec fetchBooks_start failed).(error) = None
  /\ (exec fetchChapters_start failed).(error) = None
  /\ (exec fetchHadiths_start failed).(error) = None.
Proof.
  pose proof (loaders_clear_error_on_start
                (setError (Some noHadithsFoundForPage) Sample.page1Shown))
    as [[_ Hbooks] [Hchapters Hhadiths]].
  split; [reflexivity |]. split; [exact Hbooks |]. split.
  - apply (Hchapters (GetChapters (lit "sahih-bukhari"))). reflexivity.
  - apply (Hhadiths (GetHadiths (lit "sahih-bukhari") (lit "1") 1)).
    reflexivity.
Defined.

(** When no request is issued the error is left alone. *)
Lemma loaders_keep_error_without_request (s : State) :
  (completion fetchChapters_start s = Normal None ->
     (exec fetchChapters_start s).(error) = s.(error))
  /\ (completion fetchHadiths_start s = Normal None ->
     (exec fetchHadiths_start s).(error) = s.(error)).
Proof.
  unfold completion, exec, fetchChapters_start, fetchHadiths_start, bind, get.
  split; cbn.
  - destruct (selectedBook s) as [b |]; cbn; [discriminate | reflexivity].
  - destruct (selectedBook s) as [b |], (selectedChapter s) as [c |]; cbn;
      try discriminate; reflexivity.
Qed.

(** ** The page invariant *)

(** No loader writes the page number. *)
Lemma loaders_keep_currentPage (s : State) :
  (exec fetchBooks_start s).(currentPage) = s.(currentPage)
  /\ (exec fetchChapters_start s).(currentPage) = s.(currentPage)
  /\ (exec fetchHadiths_start s).(currentPage) = s.(currentPage)
  /\ (forall o, (exec (fetchBooks_settle o) s).(currentPage)
                = s.(currentPage))
  /\ (forall b o, (exec (fetchChapters_settle b o) s).(currentPage)
                  = s.(currentPage))
  /\ (forall b c o, (exec (fetchHadiths_settle b c o) s).(currentPage)
                    = s.(currentPage)).
Proof.
  repeat split.
  - unfold exec, fetchChapters_start, bind, get. cbn.
    now destruct (selectedBook s).
  - unfold exec, fetchHadiths_start, bind, get. cbn.
    now destruct (selectedBook s), (selectedChapter s).
  - intros o. settle o s.
    destruct (received o) as [e | body]; [reflexivity |].
    destruct (br_status body =? 200); reflexivity.
  - intros b o. settle o s.
    destruct (received o) as [e | body]; [reflexivity |].
    destruct (cr_status body =? 200), (cr_chapters body) as [cs |],
      (cr_status body =? 404); reflexivity.
  - intros b c o. settle o s.
    destruct (received o) as [e | body]; [reflexivity |].
    destruct (hr_status body =? 200), (hr_hadiths body) as [h |];
      try reflexivity.
    destruct (Array_isArray (data h)); reflexivity.
Qed.

(** What each loader does to the loaded page envelope. *)
Lemma fetchHadiths_settle_hadithsData (b : Book) (c : Chapter)
    (o : Outcome HadithApiResponse) (s : State) :
  (exec (fetchHadiths_settle b c o) s).(hadithsData) = publishedPage o.
Proof.
  settle o s. unfold publishedPage, received.
  destruct o as [e | r]; [reflexivity |].
  destruct (ok r); [| reflexivity].
  destruct (json r) as [e | body]; [reflexivity |].
  destruct (hr_status body =? 200), (hr_hadiths body) as [h |];
    try reflexivity.
  destruct (Array_isArray (data h)); reflexivity.
Qed.

Lemma other_loaders_hadithsData (s : State) :
  (exec fetchBooks_start s).(hadithsData) = s.(hadithsData)
  /\ (exec fetchChapters_start s).(hadithsData) = None
  /\ ((exec fetchHadiths_start s).(hadithsData) = s.(hadithsData)
      \/ (exec fetchHadiths_start s).(hadithsData) = None)
  /\ (forall o, (exec (fetchBooks_settle o) s).(hadithsData)
                = s.(hadithsData))
  /\ (forall b o, (exec (fetchChapters_settle b o) s).(hadithsData)
                  = s.(hadithsData)).
Proof.
  repeat split.
  - unfold exec, fetchChapters_start, bind, get. cbn.
    now destruct (selectedBook s).
  - unfold exec, fetchHadiths_start, bind, get. cbn.
    destruct (selectedBook s), (selectedChapter s); cbn; tauto.
  - intros o. settle o s.
    destruct (received o) as [e | body]; [reflexivity |].
    destruct (br_status body =? 200); reflexivity.
  - intros b o. settle o s.
    destruct (received o) as [e | body]; [reflexivity |].
    destruct (cr_status body =? 200), (cr_chapters body) as [cs |],
      (cr_status body =? 404); reflexivity.
Qed.

Lemma step_positive (s : State) (e : Event) :
  0 < s.(currentPage) -> 0 < (step s e).(currentPage).
Proof.
  intros Hpos.
  pose proof (loaders_keep_currentPage s)
    as [Hbs [Hcs [Hhs [Hbt [Hct Hht]]]]].
  destruct e; cbn [step]; try (cbn; lia); try congruence.
  unfold handlePageChange, pageAccepted.
  destruct (0 <? page) eqn:Hp; cbn; [| assumption].
  apply Z.ltb_lt in Hp.
  destruct (hadithsData s) as [h |]; [| cbn; assumption].
  destruct (page <=? last_page h); cbn; assumption.
Qed.


Lemma run_positive (es : list Event) (s : State) :
  0 < s.(currentPage) -> 0 < (run es s).(currentPage).
Proof.
  revert s. induction es as [| e es IH]; intros s Hpos; cbn.
  - assumption.
  - apply IH. now apply step_positive.
Qed.

(** One event keeps the page invariant, provided that an envelope it
    publishes reaches at least to the current page. *)
Lemma step_pageInvariant (s : State) (e : Event) :
  pageInvariant s ->
  publishesWithinBound [e] s = true ->
  pageInvariant (step s e).
Proof.
  intros [Hpos Hle] Hbound.
  split; [now apply step_positive |].
  pose proof (loaders_keep_currentPage s)
    as [Hbs [Hcs [Hhs [Hbt [Hct Hht]]]]].
  pose proof (other_loaders_hadithsData s)
    as [Dbs [Dcs [Dhs [Dbt Dct]]]].
  destruct e; cbn [step]; intros h Hh.
  - discriminate.
  - discriminate.
  - unfold handlePageChange in *.
    destruct (pageAccepted page s) eqn:Hacc; [| now apply Hle].
    cbn in Hh |- *. unfold pageAccepted in Hacc. rewrite Hh in Hacc.
    apply andb_true_iff in Hacc as [_ Hacc]. now apply Z.leb_le.
  - cbn in Hh |- *. now apply Hle.
  - rewrite Hbs. rewrite Dbs in Hh. now apply Hle.
  - rewrite Hbt. rewrite Dbt in Hh. now apply Hle.
  - rewrite Dcs in Hh. discriminate.
  - rewrite Hct. rewrite Dct in Hh. now apply Hle.
  - rewrite Hhs. destruct Dhs as [Dhs | Dhs]; rewrite Dhs in Hh;
      [now apply Hle | discriminate].
  - rewrite Hht. rewrite fetchHadiths_settle_hadithsData in Hh.
    cbn in Hbound. rewrite Hh, andb_true_r in Hbound.
    now apply Z.leb_le.
Qed.

Lemma run_pageInvariant (es : list Event) (s : State) :
  pageInvariant s ->
  publishesWithinBound es s = true ->
  pageInvariant (run es s).
Proof.
  revert s. induction es as [| e es IH]; intros s Hinv Hbound.
  - exact Hinv.
  - cbn [run fold_left]. cbn [publishesWithinBound] in Hbound.
    apply andb_true_iff in Hbound as [Hhere Hrest].
    apply IH; [| exact Hrest].
    apply step_pageInvariant; [exact Hinv |].
    cbn [publishesWithinBound]. now rewrite Hhere.
Qed.

Lemma initialState_pageInvariant : pageInvariant initialState.
Proof. split; [reflexivity | discriminate]. Qed.

(** C7, as the code has it: in every state reached from the initial state
    by handler calls, loader starts and loader settlements, the page number
    is positive; and it is at most the [last_page] of the loaded envelope
    whenever one is loaded, provided every envelope that a settlement
    published had a [last_page] at least the page number current when it was
    published.  (The handlers alone never move the page number past the
    [last_page] of a loaded envelope.) *)
Theorem reachable_pageInvariant (es : list Event) :
  0 < (run es initialState).(currentPage)
  /\ (publishesWithinBound es initialState = true ->
      pageInvariant (run es initialState)).
Proof.
  split.
  - apply run_positive. reflexivity.
  - apply run_pageInvariant. exact initialState_pageInvariant.
Qed.

Lemma reachable_pageInvariant_witness :
  let es := [BooksStart; BooksSettle (Sample.okJson Sample.catalog);
             BookSelect Sample.bukhari; ChaptersStart; HadithsStart;
             ChaptersSettle Sample.bukhari (Sample.okJson Sample.twoChapters);
             ChapterSelect Sample.chapter1; HadithsStart;
             HadithsSettle Sample.bukhari Sample.chapter1
               (Sample.okJson
                  (Sample.hadithPage 1 (IsArray [Sample.hadith1])));
             PageChange 2; HadithsStart; PageChange 5] in
  publishesWithinBound es initialState = true
  /\ (run es initialState).(currentPage) = 2
  /\ pageInvariant (run es initialState).
Proof.
  split; [reflexivity |]. split; [reflexivity |].
  apply reachable_pageInvariant. reflexivity.
Defined.

(** C7 as stated fails: select a book, select a chapter, change to page 5
    while no envelope is loaded (the guard accepts it), then the envelope
    of a three-page chapter is published.  The page number is 5 and the
    loaded envelope's [last_page] is 3. *)
Lemma overshoot_breaks_page_bound :
  let s := run Sample.overshoot initialState in
  s.(currentPage) = 5
  /\ (exists h, s.(hadithsData) = Some h /\ h.(last_page) = 3)
  /\ ~ pageInvariant s.
Proof.
  cbn zeta. split; [reflexivity |]. split.
  - eexists. split; reflexivity.
  - intros [_ Hle].
    specialize (Hle _ eq_refl). cbn in Hle. lia.
Qed.

(** The same overshoot inside a full run of the component, with every
    loader start and settlement that React would interleave: the request
    for page 1 is still pending when page 5 is asked for, and both
    requests then settle. *)
Example overshoot_in_full_run :
  let s := run [PageChange 5; HadithsStart;
                HadithsSettle Sample.bukhari Sample.chapter1
                  (Sample.okJson
                     (Sample.hadithPage 1 (IsArray [Sample.hadith1])));
                HadithsSettle Sample.bukhari Sample.chapter1
                  (Sample.okJson (Sample.hadithPage 5 (IsArray [])))]
               Sample.chapterPicked in
  s.(currentPage) = 5
  /\ option_map last_page s.(hadithsData) = Some 3
  /\ s.(loadingHadiths) = false
  /\ s.(error) = None.
Proof. repeat split. Qed.

(* ================================================================= *)
(** * Further properties of the loaders *)

Lemma ok_false_iff {A : Type} (st : Z) (body : thrown + A) :
  ok (mkResponse st body) = false <-> st < 200 \/ 299 < st.
Proof.
  unfold ok; cbn. rewrite andb_false_iff, Z.leb_gt, Z.leb_gt. tauto.
Qed.

Lemma ok_true_iff {A : Type} (st : Z) (body : thrown + A) :
  ok (mkResponse st body) = true <-> 200 <= st <= 299.
Proof.
  unfold ok; cbn. rewrite andb_true_iff, Z.leb_le, Z.leb_le. tauto.
Qed.

(** X1: a response outside 200-299 makes every loader set the error
    "HTTP error! status: <status>" without reading the body; the book and
    chapter lists stay as they were, the hadith page is cleared, and the
    loader's loading flag goes back to false. *)
Theorem loaders_report_http_status (s : State) (st : Z) :
  st < 200 \/ 299 < st ->
  let message := lit "HTTP error! status: " ++ numberToString st in
  (forall body,
     exec (fetchBooks_settle (Responded (mkResponse st body))) s
     = setLoadingBooks false (setError (Some message) s))
  /\ (forall book body,
     exec (fetchChapters_settle book (Responded (mkResponse st body))) s
     = setLoadingChapters false (setError (Some message) s))
  /\ (forall book chapter body,
     exec (fetchHadiths_settle book chapter
             (Responded (mkResponse st body))) s
     = setLoadingHadiths false
         (setHadithsData None (setError (Some message) s))).
Proof.
  intros Hst message. subst message.
  repeat split; intros;
    match goal with
    | |- exec (_ (Responded (mkResponse ?st ?body))) _ = _ =>
        pose proof (proj2 (ok_false_iff st body) Hst) as Hok
    | |- exec (_ _ (Responded (mkResponse ?st ?body))) _ = _ =>
        pose proof (proj2 (ok_false_iff st body) Hst) as Hok
    | |- exec (_ _ _ (Responded (mkResponse ?st ?body))) _ = _ =>
        pose proof (proj2 (ok_false_iff st body) Hst) as Hok
    end;
    match goal with
    | |- exec (_ ?o) ?s = _ => settle o s
    | |- exec (_ _ ?o) ?s = _ => settle o s
    | |- exec (_ _ _ ?o) ?s = _ => settle o s
    end;
    unfold received; rewrite Hok; reflexivity.
Qed.

Lemma loaders_report_http_status_witness :
  (exec (fetchHadiths_settle Sample.bukhari Sample.chapter1
           Scenario.serverError) Sample.page1Shown).(error)
  = Some (lit "HTTP error! status: 500")
  /\ (exec (fetchHadiths_settle Sample.bukhari Sample.chapter1
              Scenario.serverError) Sample.page1Shown).(hadithsData) = None.
Proof.
  pose proof (loaders_report_http_status Sample.page1Shown 500
                (or_intror eq_refl)) as [_ [_ Hhadiths]].
  unfold Scenario.serverError. rewrite Hhadiths. split; reflexivity.
Defined.

(** X2: when [fetch] rejects, or the response is in 200-299 and
    [response.json()] rejects, every loader sets the error to the message
    of the thrown [Error], or to "An unknown error occurred" when the
    thrown value is not an [Error]; lists stay as they were, the hadith
    page is cleared, the loading flag goes back to false. *)
Theorem loaders_report_rejection (s : State) (e : thrown) (st : Z) :
  200 <= st <= 299 ->
  let message :=
    match e with
    | ErrorObject m => m
    | OtherValue => lit "An unknown error occurred"
    end in
  (forall o, o = Rejected e \/ o = Responded (mkResponse st (inl e)) ->
     exec (fetchBooks_settle o) s
     = setLoadingBooks false (setError (Some message) s))
  /\ (forall book o,
     o = Rejected e \/ o = Responded (mkResponse st (inl e)) ->
     exec (fetchChapters_settle book o) s
     = setLoadingChapters false (setError (Some message) s))
  /\ (forall book chapter o,
     o = Rejected e \/ o = Responded (mkResponse st (inl e)) ->
     exec (fetchHadiths_settle book chapter o) s
     = setLoadingHadiths false
         (setHadithsData None (setError (Some message) s))).
Proof.
  intros Hst message. subst message.
  repeat split; intros;
    match goal with
    | H : ?o = Rejected _ \/ ?o = Responded _ |- _ =>
        settle o s;
        assert (Hrec : received o = inl e)
          by (destruct H as [-> | ->];
              [reflexivity
              | unfold received; now rewrite (proj2 (ok_true_iff st _) Hst)])
    end;
    rewrite Hrec; destruct e; reflexivity.
Qed.

Lemma loaders_report_rejection_witness :
  (exec (fetchBooks_settle
           (Rejected (ErrorObject (lit "Failed to fetch"))))
        (exec fetchBooks_start initialState)).(error)
  = Some (lit "Failed to fetch")
  /\ (exec (fetchBooks_settle (Rejected OtherValue))
           (exec fetchBooks_start initialState)).(error)
     = Some (lit "An unknown error occurred").
Proof.
  split.
  - pose proof (loaders_report_rejection
                  (exec fetchBooks_start initialState)
                  (ErrorObject (lit "Failed to fetch")) 200
                  (conj (Z.le_refl 200) (Zle_bool_imp_le 200 299 eq_refl)))
      as [Hbooks _].
    rewrite (Hbooks _ (or_introl eq_refl)). reflexivity.
  - pose proof (loaders_report_rejection
                  (exec fetchBooks_start initialState) OtherValue 200
                  (conj (Z.le_refl 200) (Zle_bool_imp_le 200 299 eq_refl)))
      as [Hbooks _].
    rewrite (Hbooks _ (or_introl eq_refl)). reflexivity.
Defined.

(** X3: a parsed catalog response whose API status is not 200 publishes no
    books: the book list stays as it was, and the error is the response's
    message, or "Failed to fetch books" when the message is absent or
    empty. *)
Theorem fetchBooks_settle_api_failure (s : State)
    (r : Response BookApiResponse) (body : BookApiResponse) :
  ok r = true -> r.(json) = inr body -> body.(br_status) <> 200 ->
  let s' := exec (fetchBooks_settle (Responded r)) s in
  s' = setLoadingBooks false
         (setError (Some (orElse body.(br_message)
                                 (lit "Failed to fetch books"))) s)
  /\ s'.(books) = s.(books)
  /\ (forall m, body.(br_message) = Some m -> m <> [] ->
        s'.(error) = Some m)
  /\ (body.(br_message) = None \/ body.(br_message) = Some [] ->
        s'.(error) = Some (lit "Failed to fetch books")).
Proof.
  intros Hok Hjson Hstatus s'. subst s'.
  settle (Responded r) s.
  rewrite (received_ok r body Hok Hjson).
  apply Z.eqb_neq in Hstatus. rewrite Hstatus. cbn.
  repeat split.
  - intros m Hm Hne. rewrite Hm. destruct m; [contradiction | reflexivity].
  - intros [Hm | Hm]; rewrite Hm; reflexivity.
Qed.

Lemma fetchBooks_settle_api_failure_witness :
  let body := mkBookApiResponse 401 (Some (lit "Invalid API key."))
                                [Sample.bukhari] in
  let s' := exec (fetchBooks_settle (Sample.okJson body))
                 (exec fetchBooks_start initialState) in
  s'.(books) = [] /\ s'.(error) = Some (lit "Invalid API key.").
Proof.
  pose proof (fetchBooks_settle_api_failure
                (exec fetchBooks_start initialState)
                (mkResponse 200
                   (inr (mkBookApiResponse 401
                           (Some (lit "Invalid API key."))
                           [Sample.bukhari])))
                (mkBookApiResponse 401 (Some (lit "Invalid API key."))
                                   [Sample.bukhari])
                eq_refl eq_refl)
    as Hfail.
  cbn zeta in Hfail.
  destruct Hfail as [_ [Hbooks [Hmsg _]]]; [cbn; discriminate |].
  split; [exact Hbooks |].
  apply Hmsg; [reflexivity | discriminate].
Defined.

(** X4: a parsed chapter response with API status 200 and a chapter list
    publishes that list as it is, in the order received, whatever book the
    request was made for; the error is not touched. *)
Theorem fetchChapters_settle_success (book : Book) (s : State)
    (r : Response ChapterApiResponse) (body : ChapterApiResponse)
    (cs : list Chapter) :
  ok r = true -> r.(json) = inr body ->
  body.(cr_status) = 200 -> body.(cr_chapters) = Some cs ->
  let s' := exec (fetchChapters_settle book (Responded r)) s in
  s' = setLoadingChapters false (setChapters cs s)
  /\ s'.(chapters) = cs
  /\ s'.(error) = s.(error).
Proof.
  intros Hok Hjson Hstatus Hcs s'. subst s'.
  settle (Responded r) s.
  rewrite (received_ok r body Hok Hjson), Hstatus, Hcs.
  repeat split.
Qed.

Lemma fetchChapters_settle_success_witness :
  (exec (fetchChapters_settle Sample.bukhari
           (Sample.okJson Sample.twoChapters)) Sample.bookPicked).(chapters)
  = [Sample.chapter1; Sample.chapter2].
Proof.
  apply (fetchChapters_settle_success Sample.bukhari Sample.bookPicked
           (mkResponse 200 (inr Sample.twoChapters)) Sample.twoChapters
           [Sample.chapter1; Sample.chapter2]); reflexivity.
Defined.

(** X5: a parsed chapter response that carries a chapter list with an API
    status other than 200 and 404 publishes nothing: the chapter list
    stays as it was and the error is the response's message, or "Failed to
    fetch chapters" when the message is absent or empty. *)
Theorem fetchChapters_settle_api_failure (book : Book) (s : State)
    (r : Response ChapterApiResponse) (body : ChapterApiResponse)
    (cs : list Chapter) :
  ok r = true -> r.(json) = inr body ->
  body.(cr_status) <> 200 -> body.(cr_status) <> 404 ->
  body.(cr_chapters) = Some cs ->
  let s' := exec (fetchChapters_settle book (Responded r)) s in
  s' = setLoadingChapters false
         (setError (Some (orElse body.(cr_message)
                                 (lit "Failed to fetch chapters"))) s)
  /\ s'.(chapters) = s.(chapters)
  /\ (body.(cr_message) = None \/ body.(cr_message) = Some [] ->
        s'.(error) = Some (lit "Failed to fetch chapters")).
Proof.
  intros Hok Hjson H200 H404 Hcs s'. subst s'.
  settle (Responded r) s.
  rewrite (received_ok r body Hok Hjson), Hcs.
  apply Z.eqb_neq in H200, H404. rewrite H200, H404. cbn.
  repeat split.
  intros [Hm | Hm]; rewrite Hm; reflexivity.
Qed.

Lemma fetchChapters_settle_api_failure_witness :
  let body := mkChapterApiResponse 500 None (Some [Sample.chapter1]) in
  let s' := exec (fetchChapters_settle Sample.bukhari (Sample.okJson body))
                 Sample.bookPicked in
  s'.(chapters) = [] /\ s'.(error) = Some (lit "Failed to fetch chapters").
Proof.
  pose proof (fetchChapters_settle_api_failure Sample.bukhari
                Sample.bookPicked
                (mkResponse 200
                   (inr (mkChapterApiResponse 500 None
                           (Some [Sample.chapter1]))))
                (mkChapterApiResponse 500 None (Some [Sample.chapter1]))
                [Sample.chapter1] eq_refl eq_refl)
    as Hfail.
  cbn zeta in Hfail.
  destruct Hfail as [_ [Hchapters Hmsg]];
    [cbn; discriminate | cbn; discriminate | reflexivity |].
  split; [exact Hchapters |].
  apply Hmsg. left. reflexivity.
Defined.

(** X6: when the chapter effect runs with a book selected, it issues the
    request for that book's slug, raises the chapters loading flag, and
    clears the chapter list, the chapter selection, the hadith page and
    the error.  With no book selected it issues no request and clears the
    chapter list, the chapter selection and the hadith page only: the
    loading flag and the error stay as they were. *)
Theorem fetchChapters_start_effect (s : State) :
  (forall book, s.(selectedBook) = Some book ->
     completion fetchChapters_start s
     = Normal (Some (GetChapters book.(bookSlug)))
     /\ exec fetchChapters_start s
        = setError None
            (setHadithsData None
               (setSelectedChapter None
                  (setChapters [] (setLoadingChapters true s)))))
  /\ (s.(selectedBook) = None ->
     completion fetchChapters_start s = Normal None
     /\ exec fetchChapters_start s
        = setHadithsData None (setSelectedChapter None (setChapters [] s))).
Proof.
  unfold completion, exec, fetchChapters_start, bind, get. cbn.
  split.
  - intros book Hbook. rewrite Hbook. split; reflexivity.
  - intros Hnone. rewrite Hnone. split; reflexivity.
Qed.

Lemma fetchChapters_start_effect_witness :
  completion fetchChapters_start (handleBookSelect Sample.bukhari Sample.loaded)
  = Normal (Some (GetChapters (lit "sahih-bukhari")))
  /\ completion fetchChapters_start initialState = Normal None
  /\ (exec fetchChapters_start initialState).(loadingChapters) = false.
Proof.
  pose proof (fetchChapters_start_effect
                (handleBookSelect Sample.bukhari Sample.loaded))
    as [Hsome _].
  pose proof (fetchChapters_start_effect initialState) as [_ Hnone].
  destruct (Hsome Sample.bukhari eq_refl) as [Hreq _].
  destruct (Hnone eq_refl) as [Hno Hstate].
  split; [exact Hreq |]. split; [exact Hno |].
  rewrite Hstate. reflexivity.
Defined.

(** X7: [fetchHadiths] issues a request exactly when both a book and a
    chapter are selected, and then for that book's slug, that chapter's
    number and the current page, with the loading flag raised and the
    error cleared but the hadith page left in place.  Otherwise it only
    clears the hadith page: no request, no loading flag, error untouched. *)
Theorem fetchHadiths_start_effect (s : State) :
  (forall book chapter,
     s.(selectedBook) = Some book -> s.(selectedChapter) = Some chapter ->
     completion fetchHadiths_start s
     = Normal (Some (GetHadiths book.(bookSlug) chapter.(chapterNumber)
                                s.(currentPage)))
     /\ exec fetchHadiths_start s
        = setError None (setLoadingHadiths true s)
     /\ (exec fetchHadiths_start s).(hadithsData) = s.(hadithsData))
  /\ (s.(selectedBook) = None \/ s.(selectedChapter) = None ->
     completion fetchHadiths_start s = Normal None
     /\ exec fetchHadiths_start s = setHadithsData None s).
Proof.
  unfold completion, exec, fetchHadiths_start, bind, get. cbn.
  split.
  - intros book chapter Hbook Hchapter. rewrite Hbook, Hchapter.
    repeat split.
  - intros [Hnone | Hnone]; rewrite Hnone;
      [| destruct (selectedBook s)]; split; reflexivity.
Qed.

Lemma fetchHadiths_start_effect_witness :
  completion fetchHadiths_start
    (handlePageChange 2 Sample.page1Shown)
  = Normal (Some (GetHadiths (lit "sahih-bukhari") (lit "1") 2))
  /\ completion fetchHadiths_start Sample.loaded = Normal None
  /\ (exec fetchHadiths_start Sample.loaded).(loadingHadiths) = false.
Proof.
  pose proof (fetchHadiths_start_effect
                (handlePageChange 2 Sample.page1Shown)) as [Hsome _].
  pose proof (fetchHadiths_start_effect Sample.loaded) as [_ Hnone].
  destruct (Hsome Sample.bukhari Sample.chapter1 eq_refl eq_refl)
    as [Hreq _].
  destruct (Hnone (or_introl eq_refl)) as [Hno Hstate].
  split; [exact Hreq |]. split; [exact Hno |].
  rewrite Hstate. reflexivity.
Defined.

(** X8: a parsed hadith response with API status 200 and an envelope
    whose [data] is an array publishes the envelope as it is, even when
    the array is empty, and leaves the error as it was. *)
Theorem fetchHadiths_settle_success (book : Book) (chapter : Chapter)
    (s : State) (r : Response HadithApiResponse)
    (body : HadithApiResponse) (h : HadithPage) (items : list Hadith) :
  ok r = true -> r.(json) = inr body ->
  body.(hr_status) = 200 -> body.(hr_hadiths) = Some h ->
  h.(data) = IsArray items ->
  let s' := exec (fetchHadiths_settle book chapter (Responded r)) s in
  s' = setLoadingHadiths false (setHadithsData (Some h) s)
  /\ s'.(hadithsData) = Some h
  /\ s'.(error) = s.(error).
Proof.
  intros Hok Hjson Hstatus Hh Hdata s'. subst s'.
  settle (Responded r) s.
  rewrite (received_ok r body Hok Hjson), Hstatus, Hh. cbn.
  rewrite Hdata. repeat split.
Qed.

Lemma fetchHadiths_settle_success_witness :
  let s' := exec (fetchHadiths_settle Sample.bukhari Sample.chapter1
                    (Sample.okJson (Sample.hadithPage 1 (IsArray []))))
                 Sample.chapterPicked in
  s'.(hadithsData) = Some (Sample.pageOf3 1 (IsArray []))
  /\ s'.(error) = None.
Proof.
  pose proof (fetchHadiths_settle_success Sample.bukhari Sample.chapter1
                Sample.chapterPicked
                (mkResponse 200 (inr (Sample.hadithPage 1 (IsArray []))))
                (Sample.hadithPage 1 (IsArray []))
                (Sample.pageOf3 1 (IsArray [])) []
                eq_refl eq_refl eq_refl eq_refl eq_refl)
    as [_ [Hpage Herr]].
  split; [exact Hpage | exact Herr].
Defined.

(** X9: a parsed hadith response whose API status is not 200, or that has
    no envelope, clears the hadith page and sets the error to the
    response's message, or to "No hadiths found for Chapter <number>."
    (the number of the chapter the request was made for) when the message
    is absent or empty. *)
Theorem fetchHadiths_settle_api_failure (book : Book) (chapter : Chapter)
    (s : State) (r : Response HadithApiResponse)
    (body : HadithApiResponse) :
  ok r = true -> r.(json) = inr body ->
  body.(hr_status) <> 200 \/ body.(hr_hadiths) = None ->
  let s' := exec (fetchHadiths_settle book chapter (Responded r)) s in
  s'.(hadithsData) = None
  /\ s'.(loadingHadiths) = false
  /\ (forall m, body.(hr_message) = Some m -> m <> [] ->
        s'.(error) = Some m)
  /\ (body.(hr_message) = None \/ body.(hr_message) = Some [] ->
        s'.(error)
        = Some (lit "No hadiths found for Chapter "
                  ++ chapter.(chapterNumber) ++ lit ".")).
Proof.
  intros Hok Hjson Hcase s'. subst s'.
  settle (Responded r) s.
  rewrite (received_ok r body Hok Hjson).
  assert (Hgiven :
    forall m, body.(hr_message) = Some m -> m <> [] ->
      Some (orElse body.(hr_message) (noHadithsFoundFor chapter)) = Some m).
  { intros m Hm Hne. rewrite Hm. destruct m; [contradiction | reflexivity]. }
  assert (Hdefault :
    body.(hr_message) = None \/ body.(hr_message) = Some [] ->
    Some (orElse body.(hr_message) (noHadithsFoundFor chapter))
    = Some (lit "No hadiths found for Chapter "
              ++ chapter.(chapterNumber) ++ lit ".")).
  { intros [Hm | Hm]; rewrite Hm; reflexivity. }
  destruct Hcase as [Hstatus | Hnone].
  - apply Z.eqb_neq in Hstatus. rewrite Hstatus.
    destruct (hr_hadiths body); cbn; repeat split; assumption.
  - rewrite Hnone.
    destruct (hr_status body =? 200); cbn; repeat split; assumption.
Qed.

Lemma fetchHadiths_settle_api_failure_witness :
  let body := mkHadithApiResponse 404 None None in
  let s' := exec (fetchHadiths_settle Sample.bukhari Sample.chapter2
                    (Sample.okJson body)) Sample.page1Shown in
  s'.(hadithsData) = None
  /\ s'.(error) = Some (lit "No hadiths found for Chapter 2.").
Proof.
  pose proof (fetchHadiths_settle_api_failure Sample.bukhari Sample.chapter2
                Sample.page1Shown
                (mkResponse 200 (inr (mkHadithApiResponse 404 None None)))
                (mkHadithApiResponse 404 None None)
                eq_refl eq_refl (or_intror eq_refl))
    as [Hpage [_ [_ Hmsg]]].
  split; [exact Hpage |].
  apply Hmsg. left. reflexivity.
Defined.

(** X10: however a request turns out, the settlement of a loader leaves
    that loader's loading flag false, and completes without an exception
    escaping the [try]. *)
Theorem settlements_lower_loading_flag (s : State) :
  (forall o, (exec (fetchBooks_settle o) s).(loadingBooks) = false
             /\ completion (fetchBooks_settle o) s = Normal tt)
  /\ (forall book o,
        (exec (fetchChapters_settle book o) s).(loadingChapters) = false
        /\ completion (fetchChapters_settle book o) s = Normal tt)
  /\ (forall book chapter o,
        (exec (fetchHadiths_settle book chapter o) s).(loadingHadiths)
        = false
        /\ completion (fetchHadiths_settle book chapter o) s = Normal tt).
Proof.
  repeat split.
  - settle o s. destruct (received o) as [e | body]; [reflexivity |].
    destruct (br_status body =? 200); reflexivity.
  - apply fetchBooks_settle_total.
  - settle o s. destruct (received o) as [e | body]; [reflexivity |].
    destruct (cr_status body =? 200), (cr_chapters body) as [cs |],
      (cr_status body =? 404); reflexivity.
  - apply fetchChapters_settle_total.
  - settle o s. destruct (received o) as [e | body]; [reflexivity |].
    destruct (hr_status body =? 200), (hr_hadiths body) as [h |];
      try reflexivity.
    destruct (Array_isArray (data h)); reflexivity.
  - apply fetchHadiths_settle_total.
Qed.

(** Which cells each loader event leaves alone. *)
Lemma loader_event_cells (s : State) (e : Event) :
  isLoaderEvent e = true ->
  (step s e).(selectedBook) = s.(selectedBook)
  /\ (step s e).(currentPage) = s.(currentPage)
  /\ (step s e).(isSidebarOpen) = s.(isSidebarOpen)
  /\ ((forall o, e <> BooksSettle o) -> (step s e).(books) = s.(books))
  /\ (e <> ChaptersStart ->
      (step s e).(selectedChapter) = s.(selectedChapter)).
Proof.
  intros Hloader. destruct e; try discriminate; cbn [step].
  - repeat split.
  - settle o s. destruct (received o) as [e | body]; [repeat split |].
    destruct (br_status body =? 200); cbn;
      (split; [| split; [| split; [| split]]]); try reflexivity.
    intros Hne. now contradiction (Hne o).
  - unfold exec, fetchChapters_start, bind, get. cbn.
    destruct (selectedBook s) eqn:Hb; cbn; rewrite ?Hb;
      (split; [| split; [| split; [| split]]]); try reflexivity;
      intros Hne; now contradiction Hne.
  - settle o s. destruct (received o) as [e | body]; [repeat split |].
    destruct (cr_status body =? 200), (cr_chapters body) as [cs |],
      (cr_status body =? 404); repeat split.
  - unfold exec, fetchHadiths_start, bind, get. cbn.
    destruct (selectedBook s) eqn:Hb, (selectedChapter s) eqn:Hc; cbn;
      rewrite ?Hb, ?Hc; repeat split.
  - settle o s. destruct (received o) as [e | body]; [repeat split |].
    destruct (hr_status body =? 200), (hr_hadiths body) as [h |];
      try (repeat split; fail).
    destruct (Array_isArray (data h)); repeat split.
Qed.

(** X11: no loader, neither when it starts nor when it settles, changes
    the selected book, the page number or the sidebar flag; the book list
    is written only by a catalog settlement, and the chapter selection
    only by the start of the chapter loader. *)
Theorem loaders_leave_selection (s : State) (e : Event) :
  isLoaderEvent e = true ->
  (step s e).(selectedBook) = s.(selectedBook)
  /\ (step s e).(currentPage) = s.(currentPage)
  /\ (step s e).(isSidebarOpen) = s.(isSidebarOpen)
  /\ ((forall o, e <> BooksSettle o) -> (step s e).(books) = s.(books))
  /\ (e <> ChaptersStart ->
      (step s e).(selectedChapter) = s.(selectedChapter)).
Proof. apply loader_event_cells. Qed.

Lemma loaders_leave_selection_witness :
  let e := HadithsSettle Sample.bukhari Sample.chapter1
             Scenario.serverError in
  (step Sample.page1Shown e).(selectedBook) = Some Sample.bukhari
  /\ (step Sample.page1Shown e).(currentPage) = 1
  /\ (step Sample.page1Shown e).(selectedChapter) = Some Sample.chapter1.
Proof.
  pose proof (loaders_leave_selection Sample.page1Shown
                (HadithsSettle Sample.bukhari Sample.chapter1
                   Scenario.serverError) eq_refl)
    as [Hbook [Hpage [_ [_ Hchapter]]]].
  split; [exact Hbook |]. split; [exact Hpage |].
  apply Hchapter. discriminate.
Defined.

(** ** Invariants of runs *)

Lemma step_dataIsArray (s : State) (e : Event) :
  dataIsArray s -> dataIsArray (step s e).
Proof.
  intros Hinv h.
  pose proof (other_loaders_hadithsData s) as [Dbs [Dcs [Dhs [Dbt Dct]]]].
  destruct e; cbn [step].
  - discriminate.
  - discriminate.
  - unfold handlePageChange. destruct (pageAccepted page s); apply Hinv.
  - apply Hinv.
  - rewrite Dbs. apply Hinv.
  - rewrite Dbt. apply Hinv.
  - rewrite Dcs. discriminate.
  - rewrite Dct. apply Hinv.
  - destruct Dhs as [Dhs | Dhs]; rewrite Dhs; [apply Hinv | discriminate].
  - rewrite fetchHadiths_settle_hadithsData. unfold publishedPage.
    destruct o as [err | r]; [discriminate |].
    destruct (ok r); [| discriminate].
    destruct (json r) as [err | body]; [discriminate |].
    destruct (hr_status body =? 200); [| discriminate].
    destruct (hr_hadiths body) as [h0 |]; [| discriminate].
    destruct (Array_isArray (data h0)) eqn:Harr; intros [= <-];
      [exact Harr | reflexivity].
Qed.

Lemma run_dataIsArray (es : list Event) (s : State) :
  dataIsArray s -> dataIsArray (run es s).
Proof.
  revert s. induction es as [| e es IH]; intros s Hs; [exact Hs |].
  cbn. apply IH. now apply step_dataIsArray.
Qed.

Lemma initialState_dataIsArray : dataIsArray initialState.
Proof. intros h. discriminate. Qed.

(** X12: in every state reached from the initial state by any sequence of
    handler calls, loader starts and settlements, a loaded page envelope
    holds an array in [data]: the [Array.isArray] check of the loader is
    the only way in. *)
Theorem reachable_dataIsArray (es : list Event) (h : HadithPage) :
  (run es initialState).(hadithsData) = Some h ->
  exists items, h.(data) = IsArray items.
Proof.
  intros Hh.
  assert (Harr : Array_isArray h.(data) = true).
  { apply (run_dataIsArray es initialState initialState_dataIsArray).
    exact Hh. }
  destruct (data h) as [items | v]; [now exists items | discriminate].
Qed.

Lemma reachable_dataIsArray_witness :
  exists items,
    (Sample.pageOf3 1 (IsArray [])).(data) = IsArray items.
Proof.
  apply (reachable_dataIsArray
           [BookSelect Sample.bukhari; ChapterSelect Sample.chapter1;
            HadithsSettle Sample.bukhari Sample.chapter1
              (Sample.okJson (Sample.hadithPage 1 (IsNotArray Null)))]).
  reflexivity.
Defined.

Lemma step_booksAvailable (s : State) (e : Event) :
  booksAvailable s -> booksAvailable (step s e).
Proof.
  intros Hinv.
  destruct e;
    try (pose proof (loader_event_cells s) as Hcells;
         match goal with
         | |- booksAvailable (step s ?e) =>
             destruct (Hcells e eq_refl) as [_ [_ [_ [Hbooks _]]]];
             unfold booksAvailable; rewrite Hbooks;
             [exact Hinv | intros o0; discriminate]
         end).
  - exact Hinv.
  - exact Hinv.
  - cbn [step]. unfold handlePageChange.
    destruct (pageAccepted page s); exact Hinv.
  - exact Hinv.
  - cbn [step]. settle o s.
    destruct (received o) as [err | body]; [exact Hinv |].
    destruct (br_status body =? 200); [| exact Hinv].
    intros b Hb. cbn in Hb. apply filter_In in Hb. tauto.
Qed.

(** X13: in every state reached from the initial state, every book of the
    published list has a hadith count that parses to a positive number,
    whatever the catalog responses were and however often they arrived. *)
Theorem reachable_booksAvailable (es : list Event) (b : Book) :
  In b (run es initialState).(books) ->
  exists n, parseInt b.(hadiths_count) = Some n /\ 0 < n.
Proof.
  assert (Hinv : forall es s, booksAvailable s -> booksAvailable (run es s)).
  { clear. induction es as [| e es IH]; intros s Hs; [exact Hs |].
    cbn. apply IH. now apply step_booksAvailable. }
  intros Hb. apply gt0_spec.
  apply (Hinv es initialState); [| exact Hb].
  intros b0 [].
Qed.

Lemma reachable_booksAvailable_witness :
  exists n, parseInt Sample.bukhari.(hadiths_count) = Some n /\ 0 < n.
Proof.
  apply (reachable_booksAvailable
           [BooksStart; BooksSettle (Sample.okJson Sample.catalog)]).
  simpl. tauto.
Defined.

(** X14: no event deselects a book: once a book is selected, a book stays
    selected along every run, and it is the book of the latest
    [handleBookSelect]. *)
Theorem selectedBook_latest_selection (es : list Event) (s : State) :
  (s.(selectedBook) <> None -> (run es s).(selectedBook) <> None)
  /\ (forall b es',
        (forall b', ~ In (BookSelect b') es') ->
        (run (es ++ BookSelect b :: es') s).(selectedBook) = Some b).
Proof.
  assert (Hstep : forall s e,
            (step s e).(selectedBook)
            = match e with
              | BookSelect b => Some b
              | _ => s.(selectedBook)
              end).
  { clear. intros s e.
    destruct e; try reflexivity;
      try (match goal with
           | |- selectedBook (step s ?e) = _ =>
               exact (proj1 (loader_event_cells s e eq_refl))
           end).
    cbn [step]. unfold handlePageChange.
    now destruct (pageAccepted page s). }
  assert (Hkeep : forall es s,
            (forall b', ~ In (BookSelect b') es) ->
            (run es s).(selectedBook) = s.(selectedBook)).
  { clear - Hstep. induction es as [| e es IH]; intros s Hno; [reflexivity |].
    cbn. rewrite IH.
    - rewrite Hstep. destruct e; try reflexivity.
      exfalso. apply (Hno book). now left.
    - intros b' Hin. apply (Hno b'). now right. }
  split.
  - revert s. induction es as [| e es IH]; intros s Hsel; [exact Hsel |].
    cbn. apply IH. rewrite Hstep. destruct e; try exact Hsel. discriminate.
  - intros b es' Hno. unfold run. rewrite fold_left_app. cbn.
    fold (run es s). fold (run es' (handleBookSelect b (run es s))).
    rewrite (Hkeep es' _ Hno). reflexivity.
Qed.

Lemma selectedBook_latest_selection_witness :
  (run [ChaptersStart; HadithsStart;
        ChaptersSettle Sample.bukhari Scenario.serverError]
       Sample.bookPicked).(selectedBook) <> None
  /\ (run ([BookSelect Sample.bukhari; ChaptersStart]
           ++ BookSelect Scenario.muslim :: [ChaptersStart; HadithsStart])
          Sample.loaded).(selectedBook) = Some Scenario.muslim.
Proof.
  split.
  - apply (selectedBook_latest_selection
             [ChaptersStart; HadithsStart;
              ChaptersSettle Sample.bukhari Scenario.serverError]
             Sample.bookPicked).
    discriminate.
  - apply (selectedBook_latest_selection
             [BookSelect Sample.bukhari; ChaptersStart] Sample.loaded).
    intros b' [Hin | [Hin | []]]; discriminate.
Defined.

(* ================================================================= *)
(** * Properties of the render *)

(** When the pagination row is shown. *)
Lemma render_pagination_shown (s : State) (v : View) (cards : list Hadith)
    (p : Pagination) :
  render s = Some v ->
  v.(content) = Some (HadithDisplay (HadithList cards (Some p))) ->
  exists h,
    s.(hadithsData) = Some h
    /\ h.(data) = IsArray cards
    /\ cards <> []
    /\ 1 < h.(last_page)
    /\ p = renderPagination s h
    /\ s.(loadingHadiths) = false
    /\ s.(selectedBook) <> None
    /\ s.(selectedChapter) <> None.
Proof.
  unfold render, renderContent, renderHadithArea.
  destruct (selectedBook s) as [book |]; [| intros [= <-]; discriminate].
  destruct (selectedChapter s) as [chapter |];
    [| intros [= <-]; discriminate].
  destruct (loadingHadiths s); [intros [= <-]; discriminate |].
  destruct (hadithsData s) as [h |].
  - destruct (data h) as [items | other] eqn:Hdata; [| discriminate].
    destruct items as [| item items].
    + cbn. destruct (isSet (error s)); intros [= <-]; discriminate.
    + cbn. destruct (1 <? last_page h) eqn:Hlast;
        intros [= <-]; cbn; intros [= <- <-].
      exists h. apply Z.ltb_lt in Hlast.
      repeat split; try assumption; discriminate.
  - cbn. destruct (isSet (error s)); intros [= <-]; discriminate.
Qed.


(** X16: when the pagination row is shown in a state that satisfies the
    page invariant, its buttons agree with the guard of
    [handlePageChange]: an enabled Previous moves to the page before, an
    enabled Next to the page after, both keep the page invariant, and a
    disabled button would change nothing even if it were clicked. *)
Theorem pagination_buttons_agree_with_guard (s : State) (v : View)
    (cards : list Hadith) (p : Pagination) :
  pageInvariant s ->
  render s = Some v ->
  v.(content) = Some (HadithDisplay (HadithList cards (Some p))) ->
  (p.(previousDisabled) = false ->
     (handlePageChange p.(previousTarget) s).(currentPage)
     = s.(currentPage) - 1
     /\ pageInvariant (handlePageChange p.(previousTarget) s))
  /\ (p.(nextDisabled) = false ->
     (handlePageChange p.(nextTarget) s).(currentPage)
     = s.(currentPage) + 1
     /\ pageInvariant (handlePageChange p.(nextTarget) s))
  /\ (p.(previousDisabled) = true ->
     handlePageChange p.(previousTarget) s = s)
  /\ (p.(nextDisabled) = true ->
     handlePageChange p.(nextTarget) s = s).
Proof.
  intros [Hpos Hle] Hrender Hcontent.
  destruct (render_pagination_shown s v cards p Hrender Hcontent)
    as [h [Hh [_ [_ [_ [-> _]]]]]].
  specialize (Hle h Hh). cbn.
  assert (Hmove : forall q, 0 < q <= h.(last_page) ->
            handlePageChange q s = setCurrentPage q s).
  { intros q [Hq1 Hq2]. unfold handlePageChange, pageAccepted. rewrite Hh.
    apply Z.ltb_lt in Hq1. apply Z.leb_le in Hq2. now rewrite Hq1, Hq2. }
  assert (Hkeep : forall q, 0 < q <= h.(last_page) ->
            pageInvariant (setCurrentPage q s)).
  { intros q [Hq1 Hq2]. split; [exact Hq1 |]. cbn. intros h0 Hh0.
    rewrite Hh in Hh0. inversion Hh0; subst. exact Hq2. }
  split; [| split; [| split]].
  - intros Hen. apply Z.eqb_neq in Hen.
    rewrite Hmove by lia. split; [reflexivity | apply Hkeep; lia].
  - intros Hen. apply Z.eqb_neq in Hen.
    rewrite Hmove by lia. split; [reflexivity | apply Hkeep; lia].
  - intros Hdis. apply Z.eqb_eq in Hdis.
    unfold handlePageChange, pageAccepted. rewrite Hdis. reflexivity.
  - intros Hdis. apply Z.eqb_eq in Hdis.
    unfold handlePageChange, pageAccepted. rewrite Hh.
    replace (currentPage s + 1 <=? last_page h) with false
      by (symmetry; apply Z.leb_gt; lia).
    now rewrite andb_false_r.
Qed.

Lemma pagination_buttons_agree_with_guard_witness :
  (handlePageChange 2 Sample.page1Shown).(currentPage) = 2
  /\ handlePageChange 0 Sample.page1Shown = Sample.page1Shown.
Proof.
  assert (Hinv : pageInvariant Sample.page1Shown).
  { split; [reflexivity |]. intros h [= <-]. cbn. lia. }
  destruct (pagination_buttons_agree_with_guard Sample.page1Shown
              _ _ _ Hinv eq_refl eq_refl)
    as [_ [Hnext [Hprev _]]].
  split.
  - apply (Hnext eq_refl).
  - apply (Hprev eq_refl).
Defined.

(** X17: when the page number is more than one past the [last_page] of
    the envelope on display, the pagination row shows both buttons
    enabled and both are dead: [handlePageChange] rejects the page before
    as well as the page after, so the page number can only be reset by
    selecting a book or a chapter. *)
Theorem pagination_dead_past_last_page (s : State) (v : View)
    (cards : list Hadith) (p : Pagination) (h : HadithPage) :
  render s = Some v ->
  v.(content) = Some (HadithDisplay (HadithList cards (Some p))) ->
  s.(hadithsData) = Some h ->
  h.(last_page) + 1 < s.(currentPage) ->
  p.(previousDisabled) = false
  /\ p.(nextDisabled) = false
  /\ In (PageChange (s.(currentPage) - 1)) (clicks v)
  /\ In (PageChange (s.(currentPage) + 1)) (clicks v)
  /\ handlePageChange (s.(currentPage) - 1) s = s
  /\ handlePageChange (s.(currentPage) + 1) s = s.
Proof.
  intros Hrender Hcontent Hh Hpast.
  destruct (render_pagination_shown s v cards p Hrender Hcontent)
    as [h' [Hh' [_ [_ [Hlast [-> _]]]]]].
  rewrite Hh in Hh'. inversion Hh'; subst h'. clear Hh'.
  assert (Hprev : (currentPage s =? 1) = false) by (apply Z.eqb_neq; lia).
  assert (Hnext : (currentPage s =? last_page h) = false)
    by (apply Z.eqb_neq; lia).
  assert (Hdead : forall q, last_page h < q -> handlePageChange q s = s).
  { intros q Hq. unfold handlePageChange, pageAccepted. rewrite Hh.
    apply Z.leb_gt in Hq. rewrite Hq. now rewrite andb_false_r. }
  cbn. rewrite Hprev, Hnext.
  split; [reflexivity |]. split; [reflexivity |].
  split; [| split; [| split]].
  - unfold clicks. rewrite Hcontent. cbn. rewrite Hprev.
    right. apply in_or_app. right. now left.
  - unfold clicks. rewrite Hcontent. cbn. rewrite Hprev, Hnext.
    right. apply in_or_app. right. right. now left.
  - apply Hdead. lia.
  - apply Hdead. lia.
Qed.

Lemma pagination_dead_past_last_page_witness :
  Scenario.afterStaleRace.(currentPage) = 5
  /\ option_map last_page Scenario.afterStaleRace.(hadithsData) = Some 3
  /\ handlePageChange 4 Scenario.afterStaleRace = Scenario.afterStaleRace
  /\ handlePageChange 6 Scenario.afterStaleRace = Scenario.afterStaleRace.
Proof.
  split; [reflexivity |]. split; [reflexivity |].
  destruct (pagination_dead_past_last_page Scenario.afterStaleRace
              _ _ _ _ eq_refl eq_refl eq_refl eq_refl)
    as [_ [_ [_ [_ [Hprev Hnext]]]]].
  split; [exact Hprev | exact Hnext].
Defined.

(** The run that ends in that state is one a user can drive: each of its
    handler calls is offered by the view on screen when it is made. *)
Example staleRace_offered : offered Scenario.staleRace initialState.
Proof.
  unfold Scenario.staleRace. cbn [offered].
  repeat (split;
          [first
             [ left; reflexivity
             | right;
               match goal with
               | |- exists v, render ?s = Some v /\ _ =>
                   let r := eval vm_compute in (render s) in
                   match r with
                   | Some ?v0 =>
                       exists v0;
                       split; [vm_compute; reflexivity | vm_compute; tauto]
                   end
               end ] |]).
  exact I.
Qed.

(** X18: the handler calls a view offers are backed by the state: a book
    button is for a book of the published list (shown only once the
    catalog has stopped loading), and a chapter card is for a chapter of
    the published list, shown only while a book is selected, no chapter is
    selected and the chapters are not loading. *)
Theorem clicks_backed_by_state (s : State) (v : View) :
  render s = Some v ->
  (forall b, In (BookSelect b) (clicks v) ->
     In b s.(books) /\ s.(loadingBooks) = false)
  /\ (forall c, In (ChapterSelect c) (clicks v) ->
     In c s.(chapters)
     /\ s.(selectedBook) <> None
     /\ s.(selectedChapter) = None
     /\ s.(loadingChapters) = false).
Proof.
  intros Hrender.
  assert (Hside : v.(sidebar) = renderSidebar s
                  /\ renderContent s = Some v.(content)).
  { unfold render in Hrender.
    destruct (renderContent s); [| discriminate].
    inversion Hrender; subst. split; reflexivity. }
  destruct Hside as [Hside Hcontent].
  split.
  - intros b Hin. unfold clicks in Hin. cbn in Hin.
    destruct Hin as [Hin | Hin]; [discriminate |].
    apply in_app_or in Hin. destruct Hin as [Hin | Hin].
    + rewrite Hside in Hin. unfold renderSidebar in Hin.
      destruct (loadingBooks s); [contradiction |].
      assert (Hnav : In (BookSelect b)
                (map (fun b0 => BookSelect b0.(bb_book))
                     (map (renderBookButton s) s.(books))) ->
              In b s.(books)).
      { rewrite map_map. cbn. intros Hm. apply in_map_iff in Hm.
        destruct Hm as [b0 [Heq Hb0]]. now inversion Heq; subst. }
      destruct (error s) as [[| c t] |]; cbn in Hin;
        try (split; [now apply Hnav | reflexivity]).
      destruct (Nat.eqb (List.length (books s)) 0); [contradiction |].
      split; [now apply Hnav | reflexivity].
    + destruct (content v) as [[heading [| cards | |] | [| cards [p |] | |]] |];
        cbn in Hin; try contradiction.
      * apply in_map_iff in Hin. destruct Hin as [c [Heq _]]. discriminate.
      * destruct (previousDisabled p), (nextDisabled p); cbn in Hin;
          intuition discriminate.
  - intros c Hin. unfold clicks in Hin. cbn in Hin.
    destruct Hin as [Hin | Hin]; [discriminate |].
    apply in_app_or in Hin. destruct Hin as [Hin | Hin].
    + destruct (sidebar v) as [| m | buttons]; cbn in Hin;
        try contradiction.
      apply in_map_iff in Hin. destruct Hin as [b0 [Heq _]]. discriminate.
    + unfold renderContent, renderChapterArea in Hcontent.
      destruct (selectedBook s) as [book |];
        [| inversion Hcontent as [Hc]; rewrite <- Hc in Hin; contradiction].
      destruct (selectedChapter s) as [chapter |].
      * destruct (renderHadithArea s) as [area |]; [| discriminate].
        inversion Hcontent as [Hc]. rewrite <- Hc in Hin.
        destruct area as [| cards [p |] | |]; cbn in Hin;
          try contradiction.
        destruct (previousDisabled p), (nextDisabled p); cbn in Hin;
          intuition discriminate.
      * inversion Hcontent as [Hc]. rewrite <- Hc in Hin.
        destruct (loadingChapters s); [contradiction |].
        destruct (Nat.ltb 0 (List.length (chapters s))).
        -- cbn in Hin. apply in_map_iff in Hin.
           destruct Hin as [c0 [Heq Hc0]]. inversion Heq; subst.
           repeat split; try assumption; discriminate.
        -- cbn in Hin. destruct (isSet (error s)); contradiction.
Qed.

Lemma clicks_backed_by_state_witness :
  In Sample.bukhari Sample.loaded.(books)
  /\ In Sample.chapter2
        (exec (fetchChapters_settle Sample.bukhari
                 (Sample.okJson Sample.twoChapters))
              Sample.bookPicked).(chapters).
Proof.
  split.
  - destruct (clicks_backed_by_state Sample.loaded _ eq_refl) as [Hbook _].
    apply (Hbook Sample.bukhari). cbn. right. left. reflexivity.
  - destruct (clicks_backed_by_state
                (exec (fetchChapters_settle Sample.bukhari
                         (Sample.okJson Sample.twoChapters))
                      Sample.bookPicked) _ eq_refl) as [_ Hchapter].
    apply (Hchapter Sample.chapter2). cbn. right. right. right. left.
    reflexivity.
Defined.

(** The state a chapter settlement leaves, case by case. *)
Lemma chapters_settle_published_state (book : Book) (s : State)
    (r : Response ChapterApiResponse) (body : ChapterApiResponse)
    (cs : list Chapter) :
  ok r = true -> r.(json) = inr body ->
  body.(cr_status) = 200 -> body.(cr_chapters) = Some cs ->
  exec (fetchChapters_settle book (Responded r)) s
  = setLoadingChapters false (setChapters cs s).
Proof.
  intros Hok Hjson Hstatus Hcs.
  settle (Responded r) s.
  rewrite (received_ok r body Hok Hjson), Hstatus, Hcs.
  reflexivity.
Qed.

Lemma chapters_settle_missing_state (B : Book) (s : State)
    (r : Response ChapterApiResponse) (body : ChapterApiResponse) :
  ok r = true -> r.(json) = inr body ->
  (body.(cr_status) = 404 \/ body.(cr_chapters) = None ->
     exec (fetchChapters_settle B (Responded r)) s
     = setLoadingChapters false
         (setChapters [] (setError (Some (noChaptersFound B)) s)))
  /\ (body.(cr_status) = 200 -> body.(cr_chapters) = Some [] ->
     exec (fetchChapters_settle B (Responded r)) s
     = setLoadingChapters false (setChapters [] s)).
Proof.
  intros Hok Hjson.
  settle (Responded r) s.
  rewrite (received_ok r body Hok Hjson).
  split.
  - intros [H404 | Hnone].
    + rewrite H404. cbn. now destruct (cr_chapters body).
    + rewrite Hnone.
      destruct (cr_status body =? 200); cbn;
        now rewrite orb_true_r.
  - intros H200 Hnil. rewrite H200, Hnil. reflexivity.
Qed.

(** X19: what a user sees once a chapter request has settled while a book
    is selected and no chapter is.  After status 200 with an empty chapter
    list, with no error pending: the text "No chapters available" under
    the heading "Chapters in <selected book>", and no error banner.  After
    status 404 or a body without chapter list: the banner "No chapters
    found for <book of the request>." and nothing under the heading. *)
Theorem view_after_chapters_settle (B selected : Book) (s : State)
    (r : Response ChapterApiResponse) (body : ChapterApiResponse) :
  ok r = true -> r.(json) = inr body ->
  s.(selectedBook) = Some selected -> s.(selectedChapter) = None ->
  let s' := exec (fetchChapters_settle B (Responded r)) s in
  let heading := lit "Chapters in " ++ selected.(bookName) in
  (body.(cr_status) = 200 -> body.(cr_chapters) = Some [] ->
   s.(error) = None ->
     exists v, render s' = Some v
       /\ v.(content) = Some (ChapterSelection heading NoChaptersAvailable)
       /\ v.(errorBanner) = None)
  /\ (body.(cr_status) = 404 \/ body.(cr_chapters) = None ->
     exists v, render s' = Some v
       /\ v.(content) = Some (ChapterSelection heading ChapterAreaEmpty)
       /\ v.(errorBanner) = Some (lit "No chapters found for "
                                    ++ B.(bookName) ++ lit ".")).
Proof.
  intros Hok Hjson Hbook Hchapter s' heading.
  destruct (chapters_settle_missing_state B s r body Hok Hjson)
    as [Hmissing Hempty].
  fold s' in Hmissing, Hempty.
  split.
  - intros H200 Hnil Herr.
    rewrite (Hempty H200 Hnil).
    unfold render, renderContent, renderChapterArea. cbn.
    rewrite Hbook, Hchapter, Herr. cbn.
    eexists. repeat split.
  - intros Hcase.
    rewrite (Hmissing Hcase).
    unfold render, renderContent, renderChapterArea. cbn.
    rewrite Hbook, Hchapter. cbn.
    eexists. repeat split.
Qed.

Lemma view_after_chapters_settle_witness :
  (exists v,
     render (exec (fetchChapters_settle Sample.bukhari
                     (Sample.okJson Sample.zeroChapters))
                  Sample.bookPicked) = Some v
     /\ v.(content)
        = Some (ChapterSelection (lit "Chapters in Sahih Bukhari")
                                 NoChaptersAvailable)
     /\ v.(errorBanner) = None)
  /\ (exists v,
     render (exec (fetchChapters_settle Sample.bukhari
                     (Sample.okJson Sample.notFoundChapters))
                  Sample.bookPicked) = Some v
     /\ v.(content)
        = Some (ChapterSelection (lit "Chapters in Sahih Bukhari")
                                 ChapterAreaEmpty)
     /\ v.(errorBanner)
        = Some (lit "No chapters found for Sahih Bukhari.")).
Proof.
  split.
  - apply (view_after_chapters_settle Sample.bukhari Sample.bukhari
             Sample.bookPicked (mkResponse 200 (inr Sample.zeroChapters))
             Sample.zeroChapters eq_refl eq_refl eq_refl eq_refl);
      reflexivity.
  - apply (view_after_chapters_settle Sample.bukhari Sample.bukhari
             Sample.bookPicked
             (mkResponse 200 (inr Sample.notFoundChapters))
             Sample.notFoundChapters eq_refl eq_refl eq_refl eq_refl).
    left. reflexivity.
Defined.

(** A chapter card of the grid is a handler call the view offers. *)
Lemma clicks_chapter_card (v : View) (heading : jsstring)
    (cards : list Chapter) (c : Chapter) :
  v.(content) = Some (ChapterSelection heading (ChapterGrid cards)) ->
  In c cards -> In (ChapterSelect c) (clicks v).
Proof.
  intros Hcontent Hin. unfold clicks. rewrite Hcontent.
  right. apply in_or_app. right. now apply in_map.
Qed.

(** X20: a settlement is not checked against the current selection.  When
    a second book is selected while the chapter request of a first book is
    pending, and the first request then settles with chapters, those
    chapters are published, the loading flag is lowered although the
    second request is still pending, and the view offers the first book's
    chapters under the heading of the second book. *)
Theorem stale_chapters_shown (first second : Book) (s : State)
    (r : Response ChapterApiResponse) (body : ChapterApiResponse)
    (c : Chapter) (cs : list Chapter) :
  ok r = true -> r.(json) = inr body ->
  body.(cr_status) = 200 -> body.(cr_chapters) = Some (c :: cs) ->
  let s' := run [BookSelect second; ChaptersStart; HadithsStart;
                 ChaptersSettle first (Responded r)] s in
  s'.(selectedBook) = Some second
  /\ s'.(chapters) = c :: cs
  /\ s'.(loadingChapters) = false
  /\ exists v, render s' = Some v
       /\ v.(content)
          = Some (ChapterSelection (lit "Chapters in " ++ second.(bookName))
                                   (ChapterGrid (c :: cs)))
       /\ In (ChapterSelect c) (clicks v).
Proof.
  intros Hok Hjson Hstatus Hcs s'. subst s'.
  unfold run. cbn [fold_left step].
  rewrite (chapters_settle_published_state first _ r body (c :: cs)
             Hok Hjson Hstatus Hcs).
  split; [reflexivity |]. split; [reflexivity |]. split; [reflexivity |].
  match goal with
  | |- exists v, render ?s' = Some v /\ _ =>
      assert (Hcontent :
        renderContent s'
        = Some (Some (ChapterSelection
                        (lit "Chapters in " ++ second.(bookName))
                        (ChapterGrid (c :: cs))))) by reflexivity
  end.
  unfold render. rewrite Hcontent. cbv beta iota.
  eexists. split; [reflexivity |]. split; [reflexivity |].
  eapply clicks_chapter_card; [reflexivity | now left].
Qed.

Lemma stale_chapters_shown_witness :
  let s' := run [BookSelect Scenario.muslim; ChaptersStart; HadithsStart;
                 ChaptersSettle Sample.bukhari
                   (Sample.okJson Sample.twoChapters)] Sample.bookPicked in
  s'.(selectedBook) = Some Scenario.muslim
  /\ s'.(chapters) = [Sample.chapter1; Sample.chapter2].
Proof.
  destruct (stale_chapters_shown Sample.bukhari Scenario.muslim
              Sample.bookPicked (mkResponse 200 (inr Sample.twoChapters))
              Sample.twoChapters Sample.chapter1 [Sample.chapter2]
              eq_refl eq_refl eq_refl eq_refl)
    as [Hbook [Hchapters _]].
  split; [exact Hbook | exact Hchapters].
Defined.



(** The state a hadith settlement leaves when an envelope arrives. *)
Lemma fetchHadiths_settle_envelope_state (book : Book) (chapter : Chapter)
    (s : State) (r : Response HadithApiResponse)
    (body : HadithApiResponse) (h : HadithPage) :
  ok r = true -> r.(json) = inr body ->
  body.(hr_status) = 200 -> body.(hr_hadiths) = Some h ->
  (forall items, h.(data) = IsArray items ->
     exec (fetchHadiths_settle book chapter (Responded r)) s
     = setLoadingHadiths false (setHadithsData (Some h) s))
  /\ (forall other, h.(data) = IsNotArray other ->
     exec (fetchHadiths_settle book chapter (Responded r)) s
     = setLoadingHadiths false
         (setError (Some noHadithsFoundForPage)
            (setHadithsData (Some (with_data h (IsArray []))) s))).
Proof.
  intros Hok Hjson Hstatus Hh.
  settle (Responded r) s.
  rewrite (received_ok r body Hok Hjson), Hstatus, Hh. cbn.
  split; intros x Hdata; rewrite Hdata; reflexivity.
Qed.

(** X22: what a user sees once a hadith page has settled while a book and
    a chapter are selected.  A non-empty array is listed, with the
    pagination row exactly when [last_page > 1].  An empty array, with no
    error pending, gives the text "No hadiths found for this chapter." and
    no banner.  A [data] that is not an array gives the banner "No hadiths
    found for this chapter or page." and nothing else. *)
Theorem view_after_hadiths_settle (book selected : Book)
    (chapter current : Chapter) (s : State)
    (r : Response HadithApiResponse) (body : HadithApiResponse)
    (h : HadithPage) :
  ok r = true -> r.(json) = inr body ->
  body.(hr_status) = 200 -> body.(hr_hadiths) = Some h ->
  s.(selectedBook) = Some selected -> s.(selectedChapter) = Some current ->
  let s' := exec (fetchHadiths_settle book chapter (Responded r)) s in
  (forall item items, h.(data) = IsArray (item :: items) ->
     exists v, render s' = Some v
       /\ v.(content)
          = Some (HadithDisplay
                    (HadithList (item :: items)
                       (if 1 <? h.(last_page)
                        then Some (renderPagination s h) else None))))
  /\ (h.(data) = IsArray [] -> s.(error) = None ->
     exists v, render s' = Some v
       /\ v.(content) = Some (HadithDisplay NoHadithsFound)
       /\ v.(errorBanner) = None)
  /\ (forall other, h.(data) = IsNotArray other ->
     exists v, render s' = Some v
       /\ v.(content) = Some (HadithDisplay HadithAreaEmpty)
       /\ v.(errorBanner)
          = Some (lit "No hadiths found for this chapter or page.")).
Proof.
  intros Hok Hjson Hstatus Hh Hbook Hchapter s'. subst s'.
  destruct (fetchHadiths_settle_envelope_state book chapter s r body h
              Hok Hjson Hstatus Hh) as [Harray Hother].
  split; [| split].
  - intros item items Hdata. rewrite (Harray _ Hdata).
    unfold render, renderContent, renderHadithArea. cbn.
    rewrite Hbook, Hchapter, Hdata. cbn.
    destruct (1 <? last_page h); eexists; split; reflexivity.
  - intros Hdata Herr. rewrite (Harray _ Hdata).
    unfold render, renderContent, renderHadithArea. cbn.
    rewrite Hbook, Hchapter, Hdata, Herr. cbn.
    eexists. repeat split.
  - intros other Hdata. rewrite (Hother _ Hdata).
    unfold render, renderContent, renderHadithArea. cbn.
    rewrite Hbook, Hchapter. cbn.
    eexists. repeat split.
Qed.

Lemma view_after_hadiths_settle_witness :
  (exists v,
     render (exec (fetchHadiths_settle Sample.bukhari Sample.chapter1
                     (Sample.okJson
                        (Sample.hadithPage 1 (IsNotArray Null))))
                  Sample.chapterPicked) = Some v
     /\ v.(content) = Some (HadithDisplay HadithAreaEmpty)
     /\ v.(errorBanner)
        = Some (lit "No hadiths found for this chapter or page."))
  /\ (exists v,
     render (exec (fetchHadiths_settle Sample.bukhari Sample.chapter1
                     (Sample.okJson (Sample.hadithPage 1 (IsArray []))))
                  Sample.chapterPicked) = Some v
     /\ v.(content) = Some (HadithDisplay NoHadithsFound)
     /\ v.(errorBanner) = None).
Proof.
  split.
  - destruct (view_after_hadiths_settle Sample.bukhari Sample.bukhari
                Sample.chapter1 Sample.chapter1 Sample.chapterPicked
                (mkResponse 200
                   (inr (Sample.hadithPage 1 (IsNotArray Null))))
                (Sample.hadithPage 1 (IsNotArray Null))
                (Sample.pageOf3 1 (IsNotArray Null))
                eq_refl eq_refl eq_refl eq_refl eq_refl eq_refl)
      as [_ [_ Hother]].
    apply (Hother Null eq_refl).
  - destruct (view_after_hadiths_settle Sample.bukhari Sample.bukhari
                Sample.chapter1 Sample.chapter1 Sample.chapterPicked
                (mkResponse 200 (inr (Sample.hadithPage 1 (IsArray []))))
                (Sample.hadithPage 1 (IsArray []))
                (Sample.pageOf3 1 (IsArray []))
                eq_refl eq_refl eq_refl eq_refl eq_refl eq_refl)
      as [_ [Hempty _]].
    apply (Hempty eq_refl eq_refl).
Defined.

(** X23: a selection forgets the navigation before it.  Selecting a book
    after selecting a chapter or changing the page gives the state that
    selecting the book alone gives; selecting a chapter after changing the
    page gives the state that selecting the chapter alone gives; and
    repeating a selection or a page change changes nothing more. *)
Theorem selections_absorb_navigation (s : State) (b : Book) (c : Chapter)
    (p : Z) :
  handleBookSelect b (handleChapterSelect c s) = handleBookSelect b s
  /\ handleBookSelect b (handlePageChange p s) = handleBookSelect b s
  /\ handleChapterSelect c (handlePageChange p s) = handleChapterSelect c s
  /\ handleBookSelect b (handleBookSelect b s) = handleBookSelect b s
  /\ handleChapterSelect c (handleChapterSelect c s)
     = handleChapterSelect c s
  /\ handlePageChange p (handlePageChange p s) = handlePageChange p s.
Proof.
  unfold handlePageChange.
  destruct (pageAccepted p s) eqn:Hacc; repeat split;
    try (unfold handlePageChange; rewrite Hacc; reflexivity).
  assert (Hagain : pageAccepted p (setCurrentPage p s) = true)
    by exact Hacc.
  unfold handlePageChange. now rewrite Hagain.
Qed.

(** ** Decimal counts *)









